(** * Session routes of the authentication server and their client

    A shallow embedding of the Express router of the server
    ([POST /auth/register], [/auth/login], [/auth/refresh], [/auth/logout])
    and of the Prisma calls it makes, followed by the properties of the
    token lifecycle: rotation, expiry, logout, registration and login
    failures.

    Conventions.
    - Times are integers (milliseconds since the epoch), as JavaScript
      time values are; one handler run reads the clock once ([now]).
    - [crypto.randomBytes(40).toString('hex')] is an input of the run
      ([randomHex]): the handler has no influence on it.
    - The utilities imported by the router ([hashPassword],
      [verifyPassword], [signAccessToken]), the digest
      [crypto.createHash('sha256')], the column defaults of the Prisma
      schema and the dates that the Prisma client takes for a column
      ([storesDate]) are the fields of the class [Platform].  A [Date]
      handed to Prisma is refused when it is an Invalid Date or when the
      client does not take it, as it does not a date past the year 9999.
      The time claims that [signAccessToken] puts in a token are not
      modelled.
    - A handler is a computation over the database and the response under
      construction which may throw; the [try]/[catch] of every route turns a
      throw into status 500.
    - The tables have the columns the router reads and writes.  [email]
      is a unique column (it is the key of [findUnique]) compared as a
      string.  Uniqueness of [tokenHash] and the foreign key from a token
      to its user are not built into the tables: where a property needs
      one it is a hypothesis, and the databases reached from the empty one
      are shown to hold pairwise distinct token hashes.  [updatedAt] is set
      at creation only.
    - Request fields are strings or absent; other JSON values are not
      modelled.

    The second part is the client: the API service of
    [client/src/service/app.api.ts] and the interceptor it installs on
    [window.fetch], in its two versions.
    - A URL is the absolute URL the [Request] object holds.  Headers and
      [credentials: 'include'] are the same on every request of the
      service and are left out.
    - The server and the network behind the browser's own [fetch] are the
      fields of the class [Backend]; a fetch is answered or rejects.
    - The interceptor is installed once.  Its first version sends the
      refresh through [window.fetch], that is through itself: the nesting
      is bounded by a counter and shown never to reach the bound. *)

From Stdlib Require Import ZArith String Ascii DecimalString List Bool.
From Stdlib Require Import Lia Arith.
Import ListNotations.

Local Open Scope string_scope.
Local Open Scope Z_scope.

Set Implicit Arguments.

(* ===================================================================== *)
(** * JavaScript values at the request boundary *)
(* ===================================================================== *)

(** A [string | undefined] value is truthy when present and non-empty. *)
Definition truthy (v : option string) : bool :=
  match v with
  | Some s => negb (String.eqb s "")
  | None => false
  end.

(** [v || d] for a default string [d]. *)
Definition orDefault (v : option string) (d : string) : string :=
  match v with
  | Some s => if String.eqb s "" then d else s
  | None => d
  end.

(** [v || undefined]. *)
Definition orUndefined (v : option string) : option string :=
  match v with
  | Some s => if String.eqb s "" then None else Some s
  | None => None
  end.

(** The string of a value known to be truthy. *)
Definition str (v : option string) : string :=
  match v with
  | Some s => s
  | None => ""
  end.

(** ** [parseInt] without a radix

    Leading white space is skipped, a sign is read, a [0x]/[0X] prefix
    selects radix 16, and the longest prefix of digits is the value; no
    digit at all is [NaN], here [None]. *)

Definition isWhiteSpace (c : ascii) : bool :=
  match nat_of_ascii c with
  | 9%nat | 10%nat | 11%nat | 12%nat | 13%nat | 32%nat => true
  | _ => false
  end.

Fixpoint trimStart (s : string) : string :=
  match s with
  | String c r => if isWhiteSpace c then trimStart r else s
  | EmptyString => s
  end.

Definition digitValue (radix : Z) (c : ascii) : option Z :=
  let n := Z.of_nat (nat_of_ascii c) in
  let v :=
    if (48 <=? n) && (n <=? 57) then Some (n - 48)
    else if (97 <=? n) && (n <=? 122) then Some (n - 87)
    else if (65 <=? n) && (n <=? 90) then Some (n - 55)
    else None in
  match v with
  | Some d => if d <? radix then Some d else None
  | None => None
  end.

Fixpoint parseDigits (radix : Z) (s : string) (acc : option Z) : option Z :=
  match s with
  | String c r =>
      match digitValue radix c with
      | Some d =>
          parseDigits radix r
            (Some (match acc with Some a => a * radix + d | None => d end))
      | None => acc
      end
  | EmptyString => acc
  end.

Definition parseInt (s : string) : option Z :=
  let s1 := trimStart s in
  let '(sign, s2) :=
    match s1 with
    | String "-"%char r => (-1, r)
    | String "+"%char r => (1, r)
    | _ => (1, s1)
    end in
  let '(radix, s3) :=
    match s2 with
    | String "0"%char (String "x"%char r) => (16, r)
    | String "0"%char (String "X"%char r) => (16, r)
    | _ => (10, s2)
    end in
  option_map (Z.mul sign) (parseDigits radix s3 None).

(** ** Dates

    [new Date(v)] is a valid date when [v] is a number of magnitude at most
    8.64e15; otherwise it is an Invalid Date ([None]).  In that range every
    quantity computed below is an integer that a double represents
    exactly. *)

Definition maxTime : Z := 8640000000000000.

Definition newDate (v : option Z) : option Z :=
  match v with
  | Some t => if Z.abs t <=? maxTime then Some t else None
  | None => None
  end.

(** The time values of the years 0000 to 9999: the dates whose ISO string
    has a year of four digits. *)
Definition minStored : Z := -62167219200000.
Definition maxStored : Z := 253402300799999.

Definition fourDigitYear (t : Z) : bool :=
  (minStored <=? t) && (t <=? maxStored).

(** [expDays * 24 * 60 * 60 * 1000], [NaN] when [expDays] is. *)
Definition daysToMs (expDays : option Z) : option Z :=
  option_map (fun d => d * 24 * 60 * 60 * 1000) expDays.

(** [Date.now() + ms]. *)
Definition fromNow (now : Z) (ms : option Z) : option Z :=
  option_map (fun m => now + m) ms.

(** Milliseconds in a day. *)
Definition msPerDay : Z := 24 * 60 * 60 * 1000.

(* ===================================================================== *)
(** * The database: the two Prisma models the router uses *)
(* ===================================================================== *)

Module User.
Record t : Type := mk
  { id : nat;
    email : string;
    hashedPassword : string;
    name : option string;
    bio : option string;
    emailVerified : bool;
    createdAt : Z;
    updatedAt : Z;
    lastLoginAt : option Z;
    role : string }.

Definition set_lastLoginAt (d : Z) (u : t) : t :=
  mk (id u) (email u) (hashedPassword u) (name u) (bio u)
     (emailVerified u) (createdAt u) (updatedAt u) (Some d) (role u).
End User.

Module RefreshToken.
Record t : Type := mk
  { id : nat;
    tokenHash : string;
    userId : nat;
    createdAt : Z;
    expiresAt : Z;
    revoked : bool;
    ip : option string;
    userAgent : option string }.

Definition set_revoked (b : bool) (r : t) : t :=
  mk (id r) (tokenHash r) (userId r) (createdAt r) (expiresAt r) b
     (ip r) (userAgent r).

(** The [data] of the rotation: a new hash and expiry; a field given as
    [undefined] is left as it is. *)
Definition rotate (newHash : string) (exp : Z)
    (newIp newAgent : option string) (r : t) : t :=
  mk (id r) newHash (userId r) (createdAt r) exp (revoked r)
     (match newIp with Some v => Some v | None => ip r end)
     (match newAgent with Some v => Some v | None => userAgent r end).
End RefreshToken.

Record Db : Type := mkDb
  { users : list User.t;
    refreshTokens : list RefreshToken.t }.

Definition emptyDb : Db := mkDb [] [].

(** Identifiers are generated by the database; any scheme that never
    returns an identifier in use will do, here one past the largest. *)
Definition freshId (used : list nat) : nat := S (list_max used).

(** The filters of the router's queries. *)
Definition hasEmail (e : string) (u : User.t) : bool :=
  String.eqb (User.email u) e.

Definition hasUserId (i : nat) (u : User.t) : bool :=
  Nat.eqb (User.id u) i.

(** [where: { tokenHash, revoked: false }] *)
Definition liveWith (h : string) (r : RefreshToken.t) : bool :=
  String.eqb (RefreshToken.tokenHash r) h && negb (RefreshToken.revoked r).

(** [where: { id, tokenHash, revoked: false }] *)
Definition rotationKey (i : nat) (h : string) (r : RefreshToken.t) : bool :=
  Nat.eqb (RefreshToken.id r) i && liveWith h r.

Definition hasTokenId (i : nat) (r : RefreshToken.t) : bool :=
  Nat.eqb (RefreshToken.id r) i.

(** [updateMany]: every row that satisfies [cond] is replaced by its image
    under [data]; [countWhere] is the count it reports. *)
Definition updateWhere (A : Type) (cond : A -> bool) (data : A -> A)
    (rows : list A) : list A :=
  map (fun r => if cond r then data r else r) rows.

Definition countWhere (A : Type) (cond : A -> bool) (rows : list A) : nat :=
  length (filter cond rows).

(* ===================================================================== *)
(** * Configuration and the imported utilities *)
(* ===================================================================== *)

(** [process.env] *)
Record Env : Type := mkEnv
  { REFRESH_TOKEN_EXP_DAYS : option string;
    NODE_ENV : option string;
    COOKIE_DOMAIN : option string }.

Definition noEnv : Env := mkEnv None None None.

Class Platform : Type :=
  { sha256 : string -> string;
    hashPassword : string -> string;
    verifyPassword : string -> string -> bool;
    signAccessToken : nat -> string -> string;
    (* column defaults of the schema for a created user *)
    defaultRole : string;
    defaultEmailVerified : bool;
    (* the time values that the Prisma client takes for a [DateTime]
       column; the client refuses a date past the year 9999 *)
    storesDate : Z -> bool }.

(** The parts of an Express request the routes read: [req.body],
    [req.cookies], [req.ip] and [req.headers['user-agent']]. *)
Module Req.
Record t : Type := mk
  { email : option string;
    password : option string;
    name : option string;
    refreshToken : option string;
    ip : option string;
    userAgent : option string }.
End Req.

(** What a run reads from outside the request: the clock and the random
    bytes. *)
Record Ambient : Type := mkAmbient
  { now : Z;
    randomHex : string }.

(* ===================================================================== *)
(** * Responses *)
(* ===================================================================== *)

Record CookieOptions : Type := mkCookieOptions
  { httpOnly : bool;
    secure : bool;
    sameSite : string;
    domain : string }.

Inductive CookieOp : Type :=
  | SetCookie (cname : string) (value : string) (maxAge : option Z)
      (opts : CookieOptions)
  | ClearCookie (cname : string) (opts : CookieOptions).

Record PublicUser : Type := mkPublicUser
  { pu_id : nat;
    pu_email : string;
    pu_name : option string;
    pu_bio : option string;
    pu_emailVerified : bool;
    pu_createdAt : Z;
    pu_updatedAt : Z;
    pu_lastLoginAt : option Z }.

Inductive Body : Type :=
  | Message (message : string)
  | Session (accessToken : string) (user : PublicUser)
  | Token (accessToken : string).

Record Response : Type := mkResponse
  { status : Z;
    body : Body;
    cookies : list CookieOp }.

(* ===================================================================== *)
(** * Handler computations *)
(* ===================================================================== *)

Inductive Exn : Type :=
  | UniqueConstraint
  | RecordNotFound
  | InvalidDate.

Inductive Outcome (A : Type) : Type :=
  | Val (a : A)
  | Throw (e : Exn).
Arguments Throw {A} e.

(** The state of a run: the database and the cookies set on [res]. *)
Record HState : Type := mkHState
  { db : Db;
    res : list CookieOp }.

Definition M (A : Type) : Type := HState -> Outcome A * HState.

Definition ret (A : Type) (a : A) : M A := fun s => (Val a, s).

Definition bind (A B : Type) (m : M A) (k : A -> M B) : M B :=
  fun s =>
    match m s with
    | (Val a, s') => k a s'
    | (Throw e, s') => (Throw e, s')
    end.

Definition throw (A : Type) (e : Exn) : M A := fun s => (Throw e, s).
Arguments throw {A} e.

Definition getDb : M Db := fun s => (Val (db s), s).

Definition putDb (d : Db) : M unit := fun s => (Val tt, mkHState d (res s)).

Declare Scope handler_scope.
Delimit Scope handler_scope with handler.
Notation "x <- m ;; k" := (bind m (fun x => k))
  (at level 61, m at next level, right associativity) : handler_scope.
Notation "m ;;; k" := (bind m (fun _ => k))
  (at level 61, right associativity) : handler_scope.
Local Open Scope handler_scope.

(** A reply is what [res.status(n).json(b)] sends. *)
Definition Reply : Type := (Z * Body)%type.

Definition json (st : Z) (b : Body) : M Reply := ret (st, b).

(** [try { ... } catch { res.status(500).json(...) }]: cookies set before
    the throw stay on the response. *)
Definition serve (h : M Reply) (d : Db) : Response * Db :=
  match h (mkHState d []) with
  | (Val (st, b), s) => (mkResponse st b (res s), db s)
  | (Throw _, s) =>
      (mkResponse 500 (Message "Internal server error") (res s), db s)
  end.

(* ===================================================================== *)
(** * The Prisma calls of the router *)
(* ===================================================================== *)

Section Router.

Context {P : Platform}.

(** [prisma.user.findUnique({ where: { email } })]: the row whose email is
    the given string.  The router passes the email as it received it. *)
Definition user_findUnique (e : string) : M (option User.t) :=
  d <- getDb ;;
  ret (find (hasEmail e) (users d)).

(** [prisma.user.create({ data: { email, hashedPassword, name } })]: the
    other columns take their defaults; [email] is a unique column (it is
    the key of [findUnique]), so a second row with it is refused. *)
Definition newUserRow (d : Db) (t : Z) (e hp n : string) : User.t :=
  User.mk (freshId (map User.id (users d))) e hp (Some n) None
    defaultEmailVerified t t None defaultRole.

Definition user_create (t : Z) (e hp n : string) : M User.t :=
  d <- getDb ;;
  if existsb (hasEmail e) (users d) then throw UniqueConstraint
  else
    let u := newUserRow d t e hp n in
    putDb (mkDb (users d ++ [u]) (refreshTokens d)) ;;;
    ret u.

(** [prisma.user.update({ where: { id }, data: { lastLoginAt } })] *)
Definition user_update_lastLoginAt (i : nat) (t : Z) : M unit :=
  d <- getDb ;;
  if existsb (hasUserId i) (users d)
  then putDb (mkDb (updateWhere (hasUserId i) (User.set_lastLoginAt t) (users d))
                (refreshTokens d))
  else throw RecordNotFound.

(** A [Date] handed to Prisma as the value of a column: an Invalid Date
    is refused, and so is a valid date that the client does not take. *)
Definition storedDate (date : option Z) : option Z :=
  match date with
  | Some t => if storesDate t then Some t else None
  | None => None
  end.

(** [prisma.refreshToken.create({ data: { tokenHash, userId, expiresAt, ip,
    userAgent } })]; a date that is not stored is refused. *)
Definition newTokenRow (d : Db) (t : Z) (h : string) (uid : nat) (e : Z)
    (ip ua : option string) : RefreshToken.t :=
  RefreshToken.mk (freshId (map RefreshToken.id (refreshTokens d)))
    h uid t e false ip ua.

Definition refreshToken_create (t : Z) (h : string) (uid : nat)
    (exp : option Z) (ip ua : option string) : M unit :=
  d <- getDb ;;
  match storedDate exp with
  | None => throw InvalidDate
  | Some e =>
      putDb (mkDb (users d) (refreshTokens d ++ [newTokenRow d t h uid e ip ua]))
  end.

(** [prisma.refreshToken.findFirst({ where: { tokenHash, revoked: false },
    include: { user: true } })] *)
Definition refreshToken_findFirst (h : string)
    : M (option (RefreshToken.t * option User.t)) :=
  d <- getDb ;;
  ret (option_map
         (fun r => (r, find (hasUserId (RefreshToken.userId r)) (users d)))
         (find (liveWith h) (refreshTokens d))).

(** [prisma.refreshToken.update({ where: { id }, data })] *)
Definition refreshToken_update (i : nat)
    (data : RefreshToken.t -> RefreshToken.t) : M unit :=
  d <- getDb ;;
  if existsb (hasTokenId i) (refreshTokens d)
  then putDb (mkDb (users d) (updateWhere (hasTokenId i) data (refreshTokens d)))
  else throw RecordNotFound.

(** [prisma.refreshToken.updateMany({ where, data })], one write; its
    result is [count]. *)
Definition refreshToken_updateMany (cond : RefreshToken.t -> bool)
    (data : RefreshToken.t -> RefreshToken.t) : M nat :=
  d <- getDb ;;
  putDb (mkDb (users d) (updateWhere cond data (refreshTokens d))) ;;;
  ret (countWhere cond (refreshTokens d)).

(** The [expiresAt] of the [data] of an update: a date that is not stored
    is refused. *)
Definition validDate (date : option Z) : M Z :=
  match storedDate date with
  | Some t => ret t
  | None => throw InvalidDate
  end.

(* ===================================================================== *)
(** * The response object *)
(* ===================================================================== *)

(** [res.cookie(name, value, { ..., maxAge })]; [maxAge] is a number,
    [None] when it is [NaN]. *)
Definition res_cookie (n v : string) (age : option Z) (o : CookieOptions)
    : M unit :=
  fun s => (Val tt, mkHState (db s) (res s ++ [SetCookie n v age o])).

(** [res.clearCookie(name, { ... })] *)
Definition res_clearCookie (n : string) (o : CookieOptions) : M unit :=
  fun s => (Val tt, mkHState (db s) (res s ++ [ClearCookie n o])).

(** [{ httpOnly: true, secure: process.env.NODE_ENV === 'production',
      sameSite: 'lax', domain: process.env.COOKIE_DOMAIN || 'localhost' }] *)
Definition cookieOptions (env : Env) : CookieOptions :=
  mkCookieOptions true
    (match NODE_ENV env with
     | Some v => String.eqb v "production"
     | None => false
     end)
    "lax"
    (orDefault (COOKIE_DOMAIN env) "localhost").

(** [parseInt(process.env.REFRESH_TOKEN_EXP_DAYS || dflt)] *)
Definition expDays (env : Env) (dflt : string) : option Z :=
  parseInt (orDefault (REFRESH_TOKEN_EXP_DAYS env) dflt).

Definition publicUser (u : User.t) : PublicUser :=
  mkPublicUser (User.id u) (User.email u) (User.name u) (User.bio u)
    (User.emailVerified u) (User.createdAt u) (User.updatedAt u)
    (User.lastLoginAt u).

Definition withLastLogin (t : Z) (p : PublicUser) : PublicUser :=
  mkPublicUser (pu_id p) (pu_email p) (pu_name p) (pu_bio p)
    (pu_emailVerified p) (pu_createdAt p) (pu_updatedAt p) (Some t).

(* ===================================================================== *)
(** * The routes *)
(* ===================================================================== *)

(** POST /auth/register *)
Definition register (env : Env) (a : Ambient) (req : Req.t) : M Reply :=
  if negb (truthy (Req.email req)) || negb (truthy (Req.password req))
     || negb (truthy (Req.name req))
  then json 400 (Message "Email, password, and name are required")
  else
    let email := str (Req.email req) in
    let password := str (Req.password req) in
    let name := str (Req.name req) in
    existing <- user_findUnique email ;;
    match existing with
    | Some _ => json 409 (Message "User already exists with the email")
    | None =>
        let hashedPassword := hashPassword password in
        newUser <- user_create (now a) email hashedPassword name ;;
        let accessToken := signAccessToken (User.id newUser) "user" in
        let refreshToken := randomHex a in
        let tokenHash := sha256 refreshToken in
        refreshToken_create (now a) tokenHash (User.id newUser)
          (newDate (fromNow (now a) (daysToMs (expDays env "30"))))
          (orUndefined (Req.ip req)) (orUndefined (Req.userAgent req)) ;;;
        res_cookie "accessToken" accessToken (Some (15 * 60 * 1000))
          (cookieOptions env) ;;;
        res_cookie "refreshToken" refreshToken (daysToMs (expDays env "30"))
          (cookieOptions env) ;;;
        json 201 (Session accessToken (publicUser newUser))
    end.

(** POST /auth/login *)
Definition login (env : Env) (a : Ambient) (req : Req.t) : M Reply :=
  if negb (truthy (Req.email req)) || negb (truthy (Req.password req))
  then json 400 (Message "Email and password are required")
  else
    let email := str (Req.email req) in
    let password := str (Req.password req) in
    found <- user_findUnique email ;;
    match found with
    | None => json 401 (Message "Invalid email or password")
    | Some user =>
        let isPasswordValid :=
          verifyPassword (User.hashedPassword user) password in
        if negb isPasswordValid
        then json 401 (Message "Invalid email or password")
        else
          let accessToken :=
            signAccessToken (User.id user) (User.role user) in
          let refreshToken := randomHex a in
          let tokenHash := sha256 refreshToken in
          refreshToken_create (now a) tokenHash (User.id user)
            (newDate (fromNow (now a) (daysToMs (expDays env "7"))))
            (orUndefined (Req.ip req)) (orUndefined (Req.userAgent req)) ;;;
          res_cookie "accessToken" accessToken (Some (15 * 60 * 1000))
            (cookieOptions env) ;;;
          res_cookie "refreshToken" refreshToken
            (daysToMs (expDays env "30")) (cookieOptions env) ;;;
          user_update_lastLoginAt (User.id user) (now a) ;;;
          json 200 (Session accessToken
                      (withLastLogin (now a) (publicUser user)))
    end.

(** POST /auth/refresh, up to the expiry test: the reply of an early
    return, or the digest, the row found and its user. *)
Definition refresh_find (env : Env) (a : Ambient) (req : Req.t)
    : M (Reply + string * RefreshToken.t * User.t) :=
  if negb (truthy (Req.refreshToken req))
  then r <- json 401 (Message "No refresh token") ;; ret (inl r)
  else
    let rt := str (Req.refreshToken req) in
    let tokenHash := sha256 rt in
    existing <- refreshToken_findFirst tokenHash ;;
    match existing with
    | Some (row, Some user) =>
        if RefreshToken.expiresAt row <=? now a
        then
          refreshToken_update (RefreshToken.id row)
            (RefreshToken.set_revoked true) ;;;
          res_clearCookie "refreshToken" (cookieOptions env) ;;;
          r <- json 401 (Message "Refresh token expired") ;; ret (inl r)
        else ret (inr (tokenHash, row, user))
    | _ => r <- json 401 (Message "Invalid refresh token") ;; ret (inl r)
    end.

(** POST /auth/refresh, from the rotation on.  The row and its user are
    the ones read before; the database may have moved on since. *)
Definition refresh_rotate (env : Env) (a : Ambient) (req : Req.t)
    (tokenHash : string) (existing : RefreshToken.t) (user : User.t)
    : M Reply :=
  let newRefreshToken := randomHex a in
  let newHash := sha256 newRefreshToken in
  let expDays := expDays env "7" in
  exp <- validDate (newDate (fromNow (now a) (daysToMs expDays))) ;;
  count <- refreshToken_updateMany
             (rotationKey (RefreshToken.id existing) tokenHash)
             (RefreshToken.rotate newHash exp
                (orUndefined (Req.ip req))
                (orUndefined (Req.userAgent req))) ;;
  if Nat.eqb count 0
  then json 401 (Message "Invalid or already rotated refresh token")
  else
    let accessToken := signAccessToken (User.id user) (User.role user) in
    res_cookie "accessToken" accessToken (Some (15 * 60 * 1000))
      (cookieOptions env) ;;;
    res_cookie "refreshToken" newRefreshToken (daysToMs expDays)
      (cookieOptions env) ;;;
    json 200 (Token accessToken).

Definition refresh (env : Env) (a : Ambient) (req : Req.t) : M Reply :=
  r <- refresh_find env a req ;;
  match r with
  | inl reply => ret reply
  | inr (tokenHash, existing, user) =>
      refresh_rotate env a req tokenHash existing user
  end.

(** POST /auth/logout *)
Definition logout (env : Env) (req : Req.t) : M Reply :=
  (if truthy (Req.refreshToken req)
   then
     let rt := str (Req.refreshToken req) in
     let tokenHash := sha256 rt in
     refreshToken_updateMany (liveWith tokenHash)
       (RefreshToken.set_revoked true) ;;;
     ret tt
   else ret tt) ;;;
  res_clearCookie "accessToken" (cookieOptions env) ;;;
  res_clearCookie "refreshToken" (cookieOptions env) ;;;
  json 200 (Message "Logged out successfully").

End Router.

(* ===================================================================== *)
(** * Sequences of requests *)
(* ===================================================================== *)

Inductive Route : Type :=
  | Register
  | Login
  | Refresh
  | Logout.

(** One request served: the route, what the run reads from outside, and
    the request. *)
Record Call : Type := mkCall
  { route : Route;
    amb : Ambient;
    req : Req.t }.

(** ** Requests *)

Definition credentials (e p n : option string) : Req.t :=
  Req.mk e p n None None None.

Definition withCookie (rt : option string) (ip ua : option string) : Req.t :=
  Req.mk None None None rt ip ua.

(** The request [q] with the cookie [refreshToken] set to [secret]. *)
Definition presenting (secret : string) (q : Req.t) : Req.t :=
  Req.mk (Req.email q) (Req.password q) (Req.name q) (Some secret)
    (Req.ip q) (Req.userAgent q).

Section Server.

Context {P : Platform}.

Definition handle (env : Env) (c : Call) : M Reply :=
  match route c with
  | Register => register env (amb c) (req c)
  | Login => login env (amb c) (req c)
  | Refresh => refresh env (amb c) (req c)
  | Logout => logout env (req c)
  end.

(** The database after a request, and after a sequence of requests served
    one after the other. *)
Definition step (env : Env) (d : Db) (c : Call) : Db :=
  snd (serve (handle env c) d).

Definition exec (env : Env) (cs : list Call) (d : Db) : Db :=
  fold_left (step env) cs d.

(** ** Vocabulary of the properties *)

(** Number of non-revoked rows that carry the digest [h]. *)
Definition liveCount (h : string) (d : Db) : nat :=
  countWhere (liveWith h) (refreshTokens d).

(** No non-revoked row carries the digest [h]. *)
Definition noLive (h : string) (d : Db) : Prop :=
  existsb (liveWith h) (refreshTokens d) = false.

(** The secret drawn for the call has a digest other than [h]. *)
Definition drawsOther (h : string) (c : Call) : Prop :=
  sha256 (randomHex (amb c)) <> h.

(** Some user row has exactly the email [e]. *)
Definition registered (e : string) (d : Db) : Prop :=
  existsb (hasEmail e) (users d) = true.

(** The digest of the secret drawn for a run, and for a call. *)
Definition digestOf (a : Ambient) : string := sha256 (randomHex a).

Definition callDigest (c : Call) : string := sha256 (randomHex (amb c)).

(** The digests stored in the token table. *)
Definition tokenHashes (d : Db) : list string :=
  map RefreshToken.tokenHash (refreshTokens d).

(** The writes a request can make to the token table, [h'] being the
    digest of the secret drawn for it: none, one row created with [h'],
    rows revoked, or the rows of a rotation key rotated to [h']. *)
Inductive tokensWrite (h' : string) (rows : list RefreshToken.t)
    : list RefreshToken.t -> Prop :=
  | tw_none : tokensWrite h' rows rows
  | tw_create (r : RefreshToken.t) :
      RefreshToken.tokenHash r = h' ->
      tokensWrite h' rows (rows ++ [r])
  | tw_revoke (c : RefreshToken.t -> bool) :
      tokensWrite h' rows (updateWhere c (RefreshToken.set_revoked true) rows)
  | tw_rotate (i : nat) (h : string) (exp : Z) (ip ua : option string) :
      tokensWrite h' rows
        (updateWhere (rotationKey i h) (RefreshToken.rotate h' exp ip ua)
           rows).

(** The writes a request can make to the user table: none, one row
    created, or a last-login time set. *)
Inductive usersWrite (rows : list User.t) : list User.t -> Prop :=
  | uw_none : usersWrite rows rows
  | uw_create (u : User.t) : usersWrite rows (rows ++ [u])
  | uw_login (c : User.t -> bool) (t : Z) :
      usersWrite rows (updateWhere c (User.set_lastLoginAt t) rows).

(** ** Chains of refreshes *)

(** A chain of refreshes.  A link is what its run reads from outside and
    the request as it arrives, with any body, address and user agent; the
    cookie of each request is the secret that the one before it handed
    out, [secret] for the first. *)
Fixpoint refreshChain (env : Env) (secret : string)
    (steps : list (Ambient * Req.t)) (d : Db) : list Response * Db :=
  match steps with
  | [] => ([], d)
  | (a, q) :: rest =>
      let r := serve (refresh env a (presenting secret q)) d in
      let rs := refreshChain env (randomHex a) rest (snd r) in
      (fst r :: fst rs, snd rs)
  end.

(** Each refresh comes before the expiry in force, [e] for the first and
    then the one set by the refresh before it, and sets a date that is
    valid and that the store takes. *)
Fixpoint inWindow (ttl e : Z) (steps : list Ambient) : Prop :=
  match steps with
  | [] => True
  | a :: rest =>
      now a < e /\ Z.abs (now a + ttl) <= maxTime /\
      storesDate (now a + ttl) = true /\
      inWindow ttl (now a + ttl) rest
  end.

Definition lastExpiry (ttl e : Z) (steps : list Ambient) : Z :=
  fold_left (fun _ a => now a + ttl) steps e.

Definition lastSecret (s : string) (steps : list Ambient) : string :=
  fold_left (fun _ a => randomHex a) steps s.

(** The row of a chain: the row a refresh with secret [s] finds, its user
    exists, it was created at [c] and expires at [e]. *)
Definition chainRow (d : Db) (s : string) (c e : Z) : Prop :=
  exists row user,
    find (liveWith (sha256 s)) (refreshTokens d) = Some row /\
    find (hasUserId (RefreshToken.userId row)) (users d) = Some user /\
    RefreshToken.createdAt row = c /\
    RefreshToken.expiresAt row = e.

(** The secrets drawn along a chain are non-empty and new to [d]. *)
Definition newSecrets (d : Db) (steps : list Ambient) : Prop :=
  Forall (fun a => randomHex a <> "" /\ noLive (digestOf a) d) steps.

(** The status of each reply along a list of requests. *)
Fixpoint statuses (env : Env) (cs : list (Route * Ambient * Req.t)) (d : Db)
    : list Z :=
  match cs with
  | [] => []
  | (r, a, q) :: rest =>
      let out := serve (handle env (mkCall r a q)) d in
      status (fst out) :: statuses env rest (snd out)
  end.

End Server.

(** ** Replies by the error they stand for *)

(** The failures of the refresh route. *)
Definition InvalidToken (r : Response) : Prop :=
  status r = 401 /\
  (body r = Message "No refresh token" \/
   body r = Message "Invalid refresh token" \/
   body r = Message "Invalid or already rotated refresh token").

Definition Expired (r : Response) : Prop :=
  status r = 401 /\ body r = Message "Refresh token expired".

(** The two failures a login can meet after its input check. *)
Definition InvalidCredentials : Response :=
  mkResponse 401 (Message "Invalid email or password") [].

(** The reply to a request with a missing field. *)
Definition InvalidInput : Response :=
  mkResponse 400 (Message "Email, password, and name are required") [].

Definition Conflict : Response :=
  mkResponse 409 (Message "User already exists with the email") [].

(** ** Emails up to case *)

(** Lower case of the ASCII letters, to compare emails without case. *)
Definition lowerChar (c : ascii) : ascii :=
  let n := nat_of_ascii c in
  if (65 <=? n)%nat && (n <=? 90)%nat then ascii_of_nat (n + 32) else c.

Fixpoint toLowerCase (s : string) : string :=
  match s with
  | String c r => String (lowerChar c) (toLowerCase r)
  | EmptyString => EmptyString
  end.

(** Some user row has the email [e] up to the case of its letters. *)
Definition registeredIgnoringCase (e : string) (d : Db) : bool :=
  existsb (fun u => String.eqb (toLowerCase (User.email u)) (toLowerCase e))
    (users d).

(* ===================================================================== *)
(** * Platforms and requests to run the routes on *)
(* ===================================================================== *)

(** A user id in decimal. *)
Definition decimal (n : nat) : string :=
  NilEmpty.string_of_uint (Nat.to_uint n).

(** [demo] tags its input; [demoAdmin] is [demo] over a schema whose
    default role is not ['user']; [firstChar] digests a secret to its first
    character, so that distinct secrets share a digest. *)

Definition demo : Platform :=
  {| sha256 := fun s => "sha256:" ++ s;
     hashPassword := fun p => "argon2:" ++ p;
     verifyPassword := fun h p => String.eqb h ("argon2:" ++ p);
     signAccessToken := fun i r => "jwt:" ++ decimal i ++ ":" ++ r;
     defaultRole := "user";
     defaultEmailVerified := false;
     storesDate := fourDigitYear |}.

Definition demoAdmin : Platform :=
  {| sha256 := fun s => "sha256:" ++ s;
     hashPassword := fun p => "argon2:" ++ p;
     verifyPassword := fun h p => String.eqb h ("argon2:" ++ p);
     signAccessToken := fun i r => "jwt:" ++ decimal i ++ ":" ++ r;
     defaultRole := "admin";
     defaultEmailVerified := false;
     storesDate := fourDigitYear |}.

Definition firstChar : Platform :=
  {| sha256 := fun s => substring 0 1 s;
     hashPassword := fun p => "argon2:" ++ p;
     verifyPassword := fun h p => String.eqb h ("argon2:" ++ p);
     signAccessToken := fun i r => "jwt:" ++ decimal i ++ ":" ++ r;
     defaultRole := "user";
     defaultEmailVerified := false;
     storesDate := fourDigitYear |}.

Definition alice : Req.t :=
  credentials (Some "a@x.com") (Some "P@ssw0rd!") (Some "A").

(** The database after Alice registered at time 1000 with secret [s1]. *)
Definition dbAlice : Db :=
  snd (serve (@register demo noEnv (mkAmbient 1000 "s1") alice) emptyDb).

Definition presents (secret : string) : Req.t :=
  withCookie (Some secret) None None.

(** The same person, the email written with a capital letter. *)
Definition aliceCapital : Req.t :=
  credentials (Some "A@x.com") (Some "P@ssw0rd!") (Some "A").

Definition bob : Req.t :=
  credentials (Some "b@x.com") (Some "hunter2") None.

Definition aliceWrong : Req.t :=
  credentials (Some "a@x.com") (Some "wrong") None.

(** A registration with the one-character password "1". *)
Definition aliceWeak : Req.t :=
  credentials (Some "a@x.com") (Some "1") (Some "A").

(** Three links from Alice's registration: the first just before the 30
    days of her row are over, each next one just before the 7 days set by
    the link before it. *)
Definition threeLinks : list (Ambient * Req.t) :=
  [(mkAmbient 2592000000 "s2", withCookie None (Some "10.0.0.7") None);
   (mkAmbient 3196799999 "s3",
    withCookie (Some "stale") (Some "10.0.0.8") (Some "Mozilla/5.0"));
   (mkAmbient 3801599998 "s4", Req.mk (Some "a@x.com") None None None None
                                 (Some "curl/8.5"))].

(** The walk through the routes: register, a login with a wrong password,
    a login, a refresh with the secret of the login, the same secret
    again, a logout with the new secret, and a refresh with it. *)
Definition walk : list (Route * Ambient * Req.t) :=
  [(Register, mkAmbient 1000 "s1", alice);
   (Login, mkAmbient 2000 "s2", aliceWrong);
   (Login, mkAmbient 3000 "s3", alice);
   (Refresh, mkAmbient 4000 "s4", presents "s3");
   (Refresh, mkAmbient 5000 "s5", presents "s3");
   (Logout, mkAmbient 6000 "s6", presents "s4");
   (Refresh, mkAmbient 7000 "s7", presents "s4")].

(* ===================================================================== *)
(** * Vocabulary of the further properties of the routes *)
(* ===================================================================== *)

Definition optionsOf (c : CookieOp) : CookieOptions :=
  match c with
  | SetCookie _ _ _ o => o
  | ClearCookie _ o => o
  end.

(** A cookie list with the value of every [refreshToken] cookie blanked. *)
Definition redact (c : CookieOp) : CookieOp :=
  match c with
  | SetCookie n v age o =>
      if String.eqb n "refreshToken" then SetCookie n "" age o else c
  | ClearCookie _ _ => c
  end.

(** What identifies a token row and what identifies a user: the columns
    no route is meant to change. *)
Definition tokenKey (r : RefreshToken.t) : nat * nat * Z :=
  (RefreshToken.id r, RefreshToken.userId r, RefreshToken.createdAt r).

Definition userKey (u : User.t) : nat * string * string * string :=
  (User.id u, User.email u, User.hashedPassword u, User.role u).

(** Integrity of a database: user ids, emails and token ids are pairwise
    distinct, and every token row belongs to a user row. *)
Definition integrity (d : Db) : Prop :=
  NoDup (map User.id (users d)) /\
  NoDup (map User.email (users d)) /\
  NoDup (map RefreshToken.id (refreshTokens d)) /\
  (forall r, In r (refreshTokens d) ->
             existsb (hasUserId (RefreshToken.userId r)) (users d) = true).

(** The digest of the secret a call presents in its cookie. *)
Definition presentedDigest {P : Platform} (c : Call) : string :=
  sha256 (str (Req.refreshToken (req c))).

(** The reply and the database after a call. *)
Definition answer {P : Platform} (env : Env) (c : Call) (d : Db) : Response :=
  fst (serve (handle env c) d).

(* ===================================================================== *)
(** * The client: the API service and its fetch interceptor *)
(* ===================================================================== *)

(** [s.startsWith(p)] and [s.includes(sub)] *)
Definition startsWith (s p : string) : bool := String.prefix p s.

Fixpoint includes (s sub : string) : bool :=
  if String.prefix sub s then true
  else match s with
       | String _ r => includes r sub
       | EmptyString => false
       end.

Module Client.

(** A request as the service builds it: a URL with the [method] and the
    [body] of its init ([credentials: 'include'] and the JSON content type
    are on every request and are left out). *)
Record Request : Type := mkRequest
  { url : string;
    method : string;
    body : option string }.

(** A response: its status and what [response.json()] resolves to, [None]
    when the body is not JSON. *)
Record Response (Data : Type) : Type := mkResponse
  { status : Z;
    payload : option Data }.

Arguments mkResponse {Data} status payload.
Arguments status {Data} r.
Arguments payload {Data} r.

(** [response.ok] *)
Definition ok (Data : Type) (r : Response Data) : bool :=
  (200 <=? status r) && (status r <=? 299).

(** A [Request] object: fetching it reads its body, and an object whose
    body was read cannot be fetched or cloned again (a [TypeError]). *)
Record RequestObject : Type := mkRequestObject
  { request : Request;
    bodyUsed : bool }.

Definition newRequest (r : Request) : RequestObject :=
  mkRequestObject r false.

Definition afterFetch (o : RequestObject) : RequestObject :=
  mkRequestObject (request o)
    (match body (request o) with Some _ => true | None => false end).

(** What a promise of the service can reject with. *)
Inductive Thrown : Type :=
  | NetworkError
  | TypeError
  | SyntaxError
  | Error (message : string).

(** The outcome of running a computation with a bound on the depth of
    nested calls of the patched [fetch]; [Unfinished] is the bound
    reached. *)
Inductive Result (A : Type) : Type :=
  | Returned (a : A)
  | Threw (e : Thrown)
  | Unfinished.
Arguments Threw {A} e.
Arguments Unfinished {A}.

(** The server and the network behind [window.fetch] as the browser
    provides it: a request changes the world and is answered, or the
    fetch rejects ([None]); [messageOf] is [errorData.message] when it is
    a string. *)
Class Backend : Type :=
  { World : Type;
    Data : Type;
    net : Request -> World -> option (Response Data) * World;
    messageOf : Data -> option string }.

Section Service.

Context {B : Backend}.

(** The browser: the world behind the network, the requests sent so far
    and [window.location.href] when it was assigned. *)
Record Browser : Type := mkBrowser
  { world : World;
    sent : list Request;
    location : option string }.

Definition C (A : Type) : Type := Browser -> Result A * Browser.

Definition ret (A : Type) (a : A) : C A := fun b => (Returned a, b).

Definition bind (A A' : Type) (m : C A) (k : A -> C A') : C A' :=
  fun b =>
    match m b with
    | (Returned a, b') => k a b'
    | (Threw e, b') => (Threw e, b')
    | (Unfinished, b') => (Unfinished, b')
    end.

Definition throw (A : Type) (e : Thrown) : C A := fun b => (Threw e, b).
Arguments throw {A} e.

Definition unfinished (A : Type) : C A := fun b => (Unfinished, b).
Arguments unfinished {A}.

(** [try { m } catch (error) { h }] *)
Definition tryCatch (A : Type) (m : C A) (h : Thrown -> C A) : C A :=
  fun b =>
    match m b with
    | (Threw e, b') => h e b'
    | other => other
    end.

(** [window.location.href = target] *)
Definition navigate (target : string) : C unit :=
  fun b => (Returned tt, mkBrowser (world b) (sent b) (Some target)).

(** The browser's own [fetch] on a [Request] object: it returns the
    response with the object as the fetch leaves it. *)
Definition originalFetch (o : RequestObject)
    : C (Response Data * RequestObject) :=
  fun b =>
    if bodyUsed o then (Threw TypeError, b)
    else
      match net (request o) (world b) with
      | (Some r, w) =>
          (Returned (r, afterFetch o),
           mkBrowser w (sent b ++ [request o]) (location b))
      | (None, w) =>
          (Threw NetworkError,
           mkBrowser w (sent b ++ [request o]) (location b))
      end.

(** The browser's own [fetch] on a URL and an init. *)
Definition plainFetch (r : Request) : C (Response Data) :=
  bind (originalFetch (newRequest r)) (fun p => ret (fst p)).

(** [request.clone()] *)
Definition clone (o : RequestObject) : C RequestObject :=
  if bodyUsed o then throw TypeError else ret o.

Notation "x <- m ;; k" := (bind m (fun x => k))
  (at level 61, m at next level, right associativity).

(** ** The service of [client/src/service/app.api.ts]

    [fetch] is the global the functions call: the browser's own before
    the interceptor is set up, the patched one after. *)

Definition API_BASE_URL : string := "http://localhost:4000/api".

(** [apiRequest(endpoint, { method, body })] *)
Definition apiRequest (fetch : Request -> C (Response Data))
    (endpoint method : string) (body : option string) : C Data :=
  let url := API_BASE_URL ++ endpoint in
  response <- fetch (mkRequest url method body) ;;
  if negb (ok response)
  then
    let fallback := "HTTP error! status: " ++ decimal (Z.to_nat (status response)) in
    let message :=
      match payload response with
      | Some errorData => messageOf errorData
      | None => Some fallback
      end in
    throw (Error (orDefault message fallback))
  else
    match payload response with
    | Some data => ret data
    | None => throw SyntaxError
    end.

Definition authenticatedRequest (fetch : Request -> C (Response Data))
    (endpoint method : string) (body : option string) : C Data :=
  apiRequest fetch endpoint method body.

(** [authApi] *)
Definition register (fetch : Request -> C (Response Data))
    (userData : string) : C Data :=
  apiRequest fetch "/auth/register" "POST" (Some userData).

Definition login (fetch : Request -> C (Response Data))
    (credentials : string) : C Data :=
  apiRequest fetch "/auth/login" "POST" (Some credentials).

Definition refreshToken (fetch : Request -> C (Response Data)) : C Data :=
  apiRequest fetch "/auth/refresh" "POST" None.

Definition logout (fetch : Request -> C (Response Data)) : C Data :=
  authenticatedRequest fetch "/auth/logout" "POST" None.

(** [userApi] *)
Definition getProfile (fetch : Request -> C (Response Data)) : C Data :=
  authenticatedRequest fetch "/users/me" "GET" None.

Definition getUserById (fetch : Request -> C (Response Data))
    (userId : string) : C Data :=
  authenticatedRequest fetch ("/users/user?userId=" ++ userId) "GET" None.

(** [apiUtils] *)
Definition isAuthenticated (fetch : Request -> C (Response Data)) : C bool :=
  tryCatch (_ <- getProfile fetch ;; ret true) (fun _ => ret false).

Definition clearAuth (fetch : Request -> C (Response Data)) : C unit :=
  tryCatch (_ <- logout fetch ;; ret tt) (fun _ => ret tt).

Definition autoRefreshToken (fetch : Request -> C (Response Data)) : C bool :=
  tryCatch (_ <- refreshToken fetch ;; ret true) (fun _ => ret false).

Definition checkAuthStatus (fetch : Request -> C (Response Data))
    : C (bool * option Data) :=
  tryCatch
    (response <- fetch (mkRequest (API_BASE_URL ++ "/users/me") "GET" None) ;;
     if ok response
     then
       match payload response with
       | Some user => ret (true, Some user)
       | None => throw SyntaxError
       end
     else ret (false, None))
    (fun _ => ret (false, None)).

Definition silentAuthCheck (fetch : Request -> C (Response Data)) : C bool :=
  tryCatch
    (response <- fetch (mkRequest (API_BASE_URL ++ "/users/me") "GET" None) ;;
     ret (ok response))
    (fun _ => ret false).

(** The request of [authApi.refreshToken]. *)
Definition refreshRequest : Request :=
  mkRequest (API_BASE_URL ++ "/auth/refresh") "POST" None.

(** The test the interceptor makes before it tries a refresh. *)
Definition wantsRefresh (u : string) (response : Response Data) : bool :=
  (status response =? 401)
  && negb (includes u "/auth/refresh")
  && negb (includes u "/auth/login")
  && negb (includes u "/auth/register")
  && includes u "/users/".

(** [window.fetch] as [setupApiInterceptors] leaves it.  The refresh goes
    through [authApi.refreshToken], hence through the patched [fetch]
    again: [fuel] bounds that nesting. *)
Fixpoint patchedFetch (fuel : nat) (input : Request) : C (Response Data) :=
  match fuel with
  | O => unfinished
  | S n =>
      let request := newRequest input in
      if startsWith (url input) API_BASE_URL
      then
        first <- originalFetch request ;;
        let response := fst first in
        let request := snd first in
        if wantsRefresh (url input) response
        then
          tryCatch
            (_ <- refreshToken (patchedFetch n) ;;
             again <- originalFetch request ;;
             ret (fst again))
            (fun _ => ret response)
        else ret response
      else plainFetch input
  end.

(** ** The interceptor of the later service

    The later version of the service reads its base URL from the build
    configuration, sends the refresh through the browser's own [fetch],
    retries on a clone of the request and sends the page to [/auth] when
    the refresh or the retry fails. *)

Definition wantsRefreshLater (u : string) (response : Response Data) : bool :=
  (status response =? 401)
  && negb (includes u "/auth/refresh")
  && negb (includes u "/auth/login")
  && negb (includes u "/auth/register")
  && negb (includes u "/auth/verify")
  && includes u "/users/".

Definition patchedFetchLater (base : string) (input : Request)
    : C (Response Data) :=
  let request := newRequest input in
  if startsWith (url input) base
  then
    first <- originalFetch request ;;
    let response := fst first in
    let request := snd first in
    if wantsRefreshLater (url input) response
    then
      tryCatch
        (refreshResponse <-
           plainFetch (mkRequest (base ++ "/auth/refresh") "POST" None) ;;
         if ok refreshResponse
         then
           clonedRequest <- clone request ;;
           again <- originalFetch clonedRequest ;;
           ret (fst again)
         else
           _ <- navigate "/auth" ;;
           ret response)
        (fun _ =>
           _ <- navigate "/auth" ;;
           ret response)
    else ret response
  else plainFetch input.

End Service.

Arguments throw {B A} e.
Arguments unfinished {B A}.

End Client.

(** The JSON of a reply of the auth routes, as the service reads it. *)
Definition bodyMessage (b : Body) : option string :=
  match b with
  | Message m => Some m
  | Session _ _ => None
  | Token _ => None
  end.

(** A reply of the auth routes as the service receives it. *)
Definition deliver (r : Response) : Client.Response Body :=
  Client.mkResponse (status r) (Some (body r)).

(** A backend whose replies carry the JSON of the auth routes. *)
Definition bodyBackend (W : Type)
    (n : Client.Request -> W -> option (Client.Response Body) * W)
    : Client.Backend :=
  {| Client.World := W;
     Client.Data := Body;
     Client.net := n;
     Client.messageOf := bodyMessage |}.

(** A backend that answers from a script: each request takes the next
    reply, and the fetch rejects once the script is over. *)
Definition replay (r : Client.Request)
    (script : list (option (Client.Response Body)))
    : option (Client.Response Body) * list (option (Client.Response Body)) :=
  match script with
  | [] => (None, [])
  | reply :: rest => (reply, rest)
  end.

Definition scripted : Client.Backend := bodyBackend replay.

Definition profileRequest : Client.Request :=
  Client.mkRequest "http://localhost:4000/api/users/me" "GET" None.

Definition profileUpdate : Client.Request :=
  Client.mkRequest "http://localhost:4000/api/users/me" "PUT"
    (Some "{}").

Definition loginRequest : Client.Request :=
  Client.mkRequest "http://localhost:4000/api/auth/login" "POST"
    (Some "{}").

Definition unauthorized : Client.Response Body :=
  Client.mkResponse 401 (Some (Message "Access token required")).

Definition refreshed : Client.Response Body :=
  Client.mkResponse 200 (Some (Token "jwt:1:user")).

Definition refused : Client.Response Body :=
  Client.mkResponse 401 (Some (Message "Invalid refresh token")).

Definition profile : Client.Response Body :=
  Client.mkResponse 200 (Some (Message "profile")).

(** A browser that has sent nothing, in front of a script. *)
Definition freshBrowser (script : list (option (Client.Response Body)))
    : @Client.Browser scripted :=
  @Client.mkBrowser scripted script [] None.

(* ===================================================================== *)
(** * Tables: facts about the queries *)
(* ===================================================================== *)

Section Tables.

Variable A : Type.
Variable cond : A -> bool.

(** [find] returns the first row that meets the filter: no row before it
    does. *)
Lemma find_first (rows : list A) (x : A) :
  find cond rows = Some x ->
  exists before after,
    rows = (before ++ x :: after)%list /\
    cond x = true /\
    forallb (fun r => negb (cond r)) before = true.
Proof.
  induction rows as [|r rows IH]; simpl; [discriminate|].
  destruct (cond r) eqn:Hr.
  - intros [= ->]. exists [], rows. auto.
  - intros Hf. destruct (IH Hf) as (b & a & -> & Hx & Hb).
    exists (r :: b), a. simpl. rewrite Hr. auto.
Qed.

Lemma find_none_existsb (rows : list A) :
  find cond rows = None <-> existsb cond rows = false.
Proof.
  induction rows as [|r rows IH]; simpl; [tauto|].
  destruct (cond r); simpl; [split; discriminate | exact IH].
Qed.

Lemma existsb_false_forall (rows : list A) :
  existsb cond rows = false <-> (forall r, In r rows -> cond r = false).
Proof.
  split.
  - intros He r Hin. destruct (cond r) eqn:Hr; [|reflexivity].
    rewrite <- He. symmetry. apply existsb_exists. eauto.
  - intros Hall. destruct (existsb cond rows) eqn:He; [|reflexivity].
    apply existsb_exists in He. destruct He as (r & Hin & Hr).
    rewrite (Hall r Hin) in Hr. discriminate.
Qed.

Lemma countWhere_app (l1 l2 : list A) :
  countWhere cond (l1 ++ l2) = (countWhere cond l1 + countWhere cond l2)%nat.
Proof. unfold countWhere. rewrite filter_app, length_app. reflexivity. Qed.

Lemma countWhere_zero (rows : list A) :
  countWhere cond rows = 0%nat <-> existsb cond rows = false.
Proof.
  unfold countWhere.
  induction rows as [|r rows IH]; simpl; [tauto|].
  destruct (cond r); simpl; [split; discriminate | exact IH].
Qed.

Lemma countWhere_pos (rows : list A) (x : A) :
  In x rows -> cond x = true -> countWhere cond rows <> 0%nat.
Proof.
  intros Hin Hx Hz. apply countWhere_zero in Hz.
  rewrite existsb_false_forall in Hz. rewrite (Hz x Hin) in Hx. discriminate.
Qed.

(** Rows that do not meet the filter are not written. *)
Lemma updateWhere_none (data : A -> A) (rows : list A) :
  existsb cond rows = false -> updateWhere cond data rows = rows.
Proof.
  unfold updateWhere.
  induction rows as [|r rows IH]; simpl; [reflexivity|].
  destruct (cond r); simpl; [discriminate|].
  intros He. rewrite (IH He). reflexivity.
Qed.

Lemma In_updateWhere (data : A -> A) (rows : list A) (y : A) :
  In y (updateWhere cond data rows) ->
  exists x, In x rows /\ y = (if cond x then data x else x).
Proof.
  unfold updateWhere. intros Hin. apply in_map_iff in Hin.
  destruct Hin as (x & Hx & Hin). eauto.
Qed.

End Tables.

(** A write that keeps the filtered column keeps the filter's verdict. *)
Lemma existsb_updateWhere_stable (A : Type) (f c : A -> bool) (data : A -> A)
    (rows : list A) :
  (forall r, f (data r) = f r) ->
  existsb f (updateWhere c data rows) = existsb f rows.
Proof.
  intros Hk. unfold updateWhere.
  induction rows as [|r rows IH]; simpl; [reflexivity|].
  rewrite IH. destruct (c r); [rewrite Hk|]; reflexivity.
Qed.

Lemma freshId_fresh (used : list nat) : ~ In (freshId used) used.
Proof.
  unfold freshId. intros Hin.
  pose proof (list_max_le used (list_max used)) as [Hle _].
  specialize (Hle (Nat.le_refl _)).
  rewrite Forall_forall in Hle. specialize (Hle _ Hin). lia.
Qed.

Lemma find_skip (A : Type) (f : A -> bool) (l1 l2 : list A) :
  existsb f l1 = false -> find f (l1 ++ l2) = find f l2.
Proof.
  induction l1 as [|x l1 IH]; simpl; [reflexivity|].
  destruct (f x); simpl; [discriminate|exact IH].
Qed.

Lemma map_updateWhere_stable (A B : Type) (f : A -> B) (c : A -> bool)
    (data : A -> A) (rows : list A) :
  (forall r, f (data r) = f r) ->
  map f (updateWhere c data rows) = map f rows.
Proof.
  intros Hk. unfold updateWhere. rewrite map_map. apply map_ext.
  intros r. destruct (c r); [apply Hk|reflexivity].
Qed.

Lemma NoDup_snoc (A : Type) (l : list A) (x : A) :
  NoDup l -> ~ In x l -> NoDup (l ++ [x]).
Proof.
  induction l as [|y l IH]; simpl; intros Hnd Hx.
  - constructor; [intros []|constructor].
  - inversion Hnd as [|y' l' Hy Hl]; subst.
    constructor.
    + intros Hin. apply in_app_or in Hin. destruct Hin as [Hin|[->|[]]].
      * contradiction.
      * apply Hx. left. reflexivity.
    + apply IH; [exact Hl|]. intros Hin. apply Hx. right. exact Hin.
Qed.

Lemma NoDup_app_disjoint (A : Type) (l1 l2 : list A) (x : A) :
  NoDup (l1 ++ l2) -> In x l1 -> ~ In x l2.
Proof.
  induction l1 as [|y l1 IH]; simpl; intros Hnd Hin; [contradiction|].
  inversion Hnd as [|y' l' Hy Hl]; subst.
  destruct Hin as [->|Hin]; [|apply IH; assumption].
  intros Hx. apply Hy. apply in_or_app. right. exact Hx.
Qed.

Lemma NoDup_app_left (A : Type) (l1 l2 : list A) :
  NoDup (l1 ++ l2) -> NoDup l1.
Proof.
  induction l1 as [|y l1 IH]; simpl; intros Hnd; [constructor|].
  inversion Hnd as [|y' l' Hy Hl]; subst.
  constructor; [|apply IH; exact Hl].
  intros Hin. apply Hy. apply in_or_app. left. exact Hin.
Qed.

(* ===================================================================== *)
(** * What each route answers and writes *)
(* ===================================================================== *)

Section Routes.

Context {P : Platform}.

Ltac unfold_run :=
  unfold serve, json, bind, ret, throw, getDb, putDb, res_cookie,
    res_clearCookie; simpl.

Lemma newDate_some (v : option Z) (t : Z) :
  newDate v = Some t -> v = Some t.
Proof.
  destruct v as [x|]; simpl; [|discriminate].
  destruct (Z.abs x <=? maxTime); [auto|discriminate].
Qed.

Lemma newDate_valid (t : Z) :
  Z.abs t <= maxTime -> newDate (Some t) = Some t.
Proof. intros Ht. simpl. apply Z.leb_le in Ht. rewrite Ht. reflexivity. Qed.

Lemma daysToMs_some (days : Z) :
  daysToMs (Some days) = Some (days * msPerDay).
Proof. unfold daysToMs, msPerDay. simpl. f_equal. lia. Qed.

Lemma storedDate_some (v : option Z) (t : Z) :
  storedDate v = Some t -> v = Some t /\ storesDate t = true.
Proof.
  destruct v as [x|]; simpl; [|discriminate].
  destruct (storesDate x) eqn:Hx; [|discriminate].
  intros [= <-]. auto.
Qed.

Lemma storedDate_valid (t : Z) :
  storesDate t = true -> storedDate (Some t) = Some t.
Proof. intros Ht. simpl. rewrite Ht. reflexivity. Qed.

(** The expiry computed from a default number of days. *)
Lemma default_expiry (nodeEnv cookieDomain : option string) (dflt : string)
    (t : Z) (days exp : Z) :
  parseInt dflt = Some days ->
  storedDate (newDate (fromNow t
             (daysToMs (expDays (mkEnv None nodeEnv cookieDomain) dflt))))
    = Some exp ->
  exp = t + days * msPerDay.
Proof.
  unfold expDays. simpl. intros -> Hd.
  apply storedDate_some in Hd. destruct Hd as [Hd _].
  apply newDate_some in Hd. simpl in Hd. injection Hd as <-.
  unfold msPerDay. lia.
Qed.

Lemma found_row_has_id (rows : list RefreshToken.t) (h : string)
    (row : RefreshToken.t) :
  find (liveWith h) rows = Some row ->
  existsb (hasTokenId (RefreshToken.id row)) rows = true.
Proof.
  intros Hf. apply find_some in Hf. destruct Hf as [Hin _].
  apply existsb_exists. exists row. split; [exact Hin|].
  unfold hasTokenId. apply Nat.eqb_refl.
Qed.

Lemma found_row_in_key (rows : list RefreshToken.t) (h : string)
    (row : RefreshToken.t) :
  find (liveWith h) rows = Some row ->
  countWhere (rotationKey (RefreshToken.id row) h) rows <> 0%nat.
Proof.
  intros Hf. apply find_some in Hf. destruct Hf as [Hin Hl].
  apply countWhere_pos with (x := row); [exact Hin|].
  unfold rotationKey. rewrite Nat.eqb_refl, Hl. reflexivity.
Qed.

(** The logout route always answers 200 and clears both cookies; with a
    cookie it revokes, in one write, every non-revoked row with the
    cookie's digest. *)
Lemma serve_logout (env : Env) (q : Req.t) (d : Db) :
  serve (logout env q) d =
  (mkResponse 200 (Message "Logged out successfully")
     [ClearCookie "accessToken" (cookieOptions env);
      ClearCookie "refreshToken" (cookieOptions env)],
   if truthy (Req.refreshToken q)
   then mkDb (users d)
          (updateWhere (liveWith (sha256 (str (Req.refreshToken q))))
             (RefreshToken.set_revoked true) (refreshTokens d))
   else d).
Proof.
  unfold logout, refreshToken_updateMany. unfold_run.
  destruct (truthy (Req.refreshToken q)); reflexivity.
Qed.

(** The refresh route, case by case. *)
Lemma serve_refresh (env : Env) (a : Ambient) (q : Req.t) (d : Db) :
  serve (refresh env a q) d =
  if negb (truthy (Req.refreshToken q))
  then (mkResponse 401 (Message "No refresh token") [], d)
  else
    let h := sha256 (str (Req.refreshToken q)) in
    match find (liveWith h) (refreshTokens d) with
    | None => (mkResponse 401 (Message "Invalid refresh token") [], d)
    | Some row =>
        match find (hasUserId (RefreshToken.userId row)) (users d) with
        | None => (mkResponse 401 (Message "Invalid refresh token") [], d)
        | Some user =>
            if RefreshToken.expiresAt row <=? now a
            then
              (mkResponse 401 (Message "Refresh token expired")
                 [ClearCookie "refreshToken" (cookieOptions env)],
               mkDb (users d)
                 (updateWhere (hasTokenId (RefreshToken.id row))
                    (RefreshToken.set_revoked true) (refreshTokens d)))
            else
              match storedDate (newDate (fromNow (now a)
                                           (daysToMs (expDays env "7")))) with
              | None =>
                  (mkResponse 500 (Message "Internal server error") [], d)
              | Some exp =>
                  (mkResponse 200
                     (Token (signAccessToken (User.id user) (User.role user)))
                     [SetCookie "accessToken"
                        (signAccessToken (User.id user) (User.role user))
                        (Some 900000) (cookieOptions env);
                      SetCookie "refreshToken" (randomHex a)
                        (daysToMs (expDays env "7")) (cookieOptions env)],
                   mkDb (users d)
                     (updateWhere (rotationKey (RefreshToken.id row) h)
                        (RefreshToken.rotate (sha256 (randomHex a)) exp
                           (orUndefined (Req.ip q))
                           (orUndefined (Req.userAgent q)))
                        (refreshTokens d)))
              end
        end
    end.
Proof.
  unfold refresh, refresh_find, refresh_rotate, refreshToken_findFirst,
    refreshToken_update, refreshToken_updateMany, validDate.
  unfold_run.
  destruct (truthy (Req.refreshToken q)); simpl; [|reflexivity].
  destruct (find (liveWith _) (refreshTokens d)) as [row|] eqn:Hrow;
    simpl; [|reflexivity].
  destruct (find (hasUserId _) (users d)) as [user|]; simpl; [|reflexivity].
  destruct (RefreshToken.expiresAt row <=? now a); simpl.
  - rewrite (found_row_has_id _ _ Hrow). reflexivity.
  - destruct (storedDate _) as [exp|]; simpl; [|reflexivity].
    pose proof (found_row_in_key _ _ Hrow) as Hc.
    apply Nat.eqb_neq in Hc. rewrite Hc. reflexivity.
Qed.

(** The rotation on its own, case by case. *)
Lemma serve_refresh_rotate (env : Env) (a : Ambient) (q : Req.t) (h : string)
    (existing : RefreshToken.t) (user : User.t) (d : Db) :
  serve (refresh_rotate env a q h existing user) d =
  match storedDate (newDate (fromNow (now a) (daysToMs (expDays env "7")))) with
  | None => (mkResponse 500 (Message "Internal server error") [], d)
  | Some exp =>
      if Nat.eqb (countWhere (rotationKey (RefreshToken.id existing) h)
                    (refreshTokens d)) 0
      then (mkResponse 401
              (Message "Invalid or already rotated refresh token") [], d)
      else
        (mkResponse 200
           (Token (signAccessToken (User.id user) (User.role user)))
           [SetCookie "accessToken"
              (signAccessToken (User.id user) (User.role user))
              (Some 900000) (cookieOptions env);
            SetCookie "refreshToken" (randomHex a)
              (daysToMs (expDays env "7")) (cookieOptions env)],
         mkDb (users d)
           (updateWhere (rotationKey (RefreshToken.id existing) h)
              (RefreshToken.rotate (sha256 (randomHex a)) exp
                 (orUndefined (Req.ip q)) (orUndefined (Req.userAgent q)))
              (refreshTokens d)))
  end.
Proof.
  unfold refresh_rotate, refreshToken_updateMany, validDate, serve, json,
    bind, ret, throw, getDb, putDb, res_cookie.
  destruct (storedDate _) as [exp|]; [|reflexivity]. simpl.
  destruct (Nat.eqb _ 0) eqn:Hz; simpl; [|reflexivity].
  apply Nat.eqb_eq in Hz. apply countWhere_zero in Hz.
  rewrite (updateWhere_none _ _ _ Hz). destruct d; reflexivity.
Qed.

Lemma found_user_has_id (rows : list User.t) (e : string) (u : User.t) :
  find (hasEmail e) rows = Some u ->
  existsb (hasUserId (User.id u)) rows = true.
Proof.
  intros Hf. apply find_some in Hf. destruct Hf as [Hin _].
  apply existsb_exists. exists u. split; [exact Hin|].
  unfold hasUserId. apply Nat.eqb_refl.
Qed.

(** The register route, case by case. *)
Lemma serve_register (env : Env) (a : Ambient) (q : Req.t) (d : Db) :
  serve (register env a q) d =
  if negb (truthy (Req.email q)) || negb (truthy (Req.password q))
     || negb (truthy (Req.name q))
  then (InvalidInput, d)
  else
    match find (hasEmail (str (Req.email q))) (users d) with
    | Some _ => (Conflict, d)
    | None =>
        let u := newUserRow d (now a) (str (Req.email q))
                   (hashPassword (str (Req.password q))) (str (Req.name q)) in
        let d1 := mkDb (users d ++ [u]) (refreshTokens d) in
        match storedDate (newDate (fromNow (now a)
                                     (daysToMs (expDays env "30")))) with
        | None => (mkResponse 500 (Message "Internal server error") [], d1)
        | Some exp =>
            (mkResponse 201
               (Session (signAccessToken (User.id u) "user") (publicUser u))
               [SetCookie "accessToken" (signAccessToken (User.id u) "user")
                  (Some 900000) (cookieOptions env);
                SetCookie "refreshToken" (randomHex a)
                  (daysToMs (expDays env "30")) (cookieOptions env)],
             mkDb (users d ++ [u])
               (refreshTokens d ++
                [newTokenRow d1 (now a) (sha256 (randomHex a)) (User.id u) exp
                   (orUndefined (Req.ip q)) (orUndefined (Req.userAgent q))]))
        end
    end.
Proof.
  unfold register, user_findUnique, user_create, refreshToken_create.
  unfold_run.
  destruct (negb (truthy (Req.email q)) || negb (truthy (Req.password q))
            || negb (truthy (Req.name q))); simpl; [reflexivity|].
  destruct (find (hasEmail _) (users d)) as [u0|] eqn:Hu; simpl;
    [reflexivity|].
  apply find_none_existsb in Hu. rewrite Hu. simpl.
  destruct (storedDate _) as [exp|]; reflexivity.
Qed.

(** The login route, case by case. *)
Lemma serve_login (env : Env) (a : Ambient) (q : Req.t) (d : Db) :
  serve (login env a q) d =
  if negb (truthy (Req.email q)) || negb (truthy (Req.password q))
  then (mkResponse 400 (Message "Email and password are required") [], d)
  else
    match find (hasEmail (str (Req.email q))) (users d) with
    | None => (InvalidCredentials, d)
    | Some user =>
        if negb (verifyPassword (User.hashedPassword user)
                   (str (Req.password q)))
        then (InvalidCredentials, d)
        else
          match storedDate (newDate (fromNow (now a)
                                       (daysToMs (expDays env "7")))) with
          | None => (mkResponse 500 (Message "Internal server error") [], d)
          | Some exp =>
              (mkResponse 200
                 (Session (signAccessToken (User.id user) (User.role user))
                    (withLastLogin (now a) (publicUser user)))
                 [SetCookie "accessToken"
                    (signAccessToken (User.id user) (User.role user))
                    (Some 900000) (cookieOptions env);
                  SetCookie "refreshToken" (randomHex a)
                    (daysToMs (expDays env "30")) (cookieOptions env)],
               mkDb
                 (updateWhere (hasUserId (User.id user))
                    (User.set_lastLoginAt (now a)) (users d))
                 (refreshTokens d ++
                  [newTokenRow d (now a) (sha256 (randomHex a)) (User.id user)
                     exp (orUndefined (Req.ip q))
                     (orUndefined (Req.userAgent q))]))
          end
    end.
Proof.
  unfold login, user_findUnique, user_update_lastLoginAt, refreshToken_create.
  unfold_run.
  destruct (negb (truthy (Req.email q)) || negb (truthy (Req.password q)));
    simpl; [reflexivity|].
  destruct (find (hasEmail _) (users d)) as [user|] eqn:Hu; simpl;
    [|reflexivity].
  destruct (verifyPassword _ _); simpl; [|reflexivity].
  destruct (storedDate _) as [exp|]; simpl; [|reflexivity].
  rewrite (found_user_has_id _ _ Hu). reflexivity.
Qed.

End Routes.

(** [parseInt] on the values a TTL setting may have. *)
Lemma parseInt_examples :
  parseInt "30" = Some 30 /\
  parseInt " 7 days" = Some 7 /\
  parseInt "-5" = Some (-5) /\
  parseInt "0x1F" = Some 31 /\
  parseInt "08" = Some 8 /\
  parseInt "abc" = None /\
  parseInt "" = None.
Proof. repeat split. Qed.

(** With a TTL setting that is not a number the expiry is an Invalid
    Date: the registration answers 500 after the user row was created, and
    sets no cookie. *)
Lemma register_bad_ttl_example :
  let out := serve (@register demo (mkEnv (Some "abc") None None)
                      (mkAmbient 1000 "s1") alice) emptyDb in
  fst out = mkResponse 500 (Message "Internal server error") [] /\
  map User.email (users (snd out)) = ["a@x.com"] /\
  refreshTokens (snd out) = [].
Proof. repeat split. Qed.

(** With a TTL of 3000000 days the expiry is a valid date past the year
    9999, which the store refuses: the registration answers 500 after the
    user row was created, the login answers 500, and the refresh answers
    500 and leaves the row it found as it was. *)
Lemma far_ttl_example :
  let env := mkEnv (Some "3000000") None None in
  let reg := serve (@register demo env (mkAmbient 1000 "s1") alice) emptyDb in
  newDate (fromNow 1000 (daysToMs (expDays env "30")))
    = Some 259200000001000 /\
  fst reg = mkResponse 500 (Message "Internal server error") [] /\
  map User.email (users (snd reg)) = ["a@x.com"] /\
  refreshTokens (snd reg) = [] /\
  serve (@login demo env (mkAmbient 2000 "s2") alice) dbAlice
    = (mkResponse 500 (Message "Internal server error") [], dbAlice) /\
  serve (@refresh demo env (mkAmbient 2000 "s2") (presents "s1")) dbAlice
    = (mkResponse 500 (Message "Internal server error") [], dbAlice).
Proof. repeat split. Qed.

(* ===================================================================== *)
(** * What a request can write, and what survives every request *)
(* ===================================================================== *)

Section Invariants.

Context {P : Platform}.

Lemma step_tokens (env : Env) (d : Db) (c : Call) :
  tokensWrite (sha256 (randomHex (amb c)))
    (refreshTokens d) (refreshTokens (step env d c)).
Proof.
  unfold step, handle. destruct (route c).
  - rewrite serve_register.
    destruct (_ || _); [constructor|].
    destruct (find _ _); [constructor|].
    simpl. destruct (storedDate _); simpl; [|constructor].
    apply tw_create. reflexivity.
  - rewrite serve_login.
    destruct (_ || _); [constructor|].
    destruct (find _ _) as [user|]; [|constructor].
    destruct (negb _); [constructor|].
    destruct (storedDate _); simpl; [|constructor].
    apply tw_create. reflexivity.
  - rewrite serve_refresh.
    destruct (negb _); [constructor|]. simpl.
    destruct (find _ (refreshTokens d)) as [row|]; [|constructor].
    destruct (find _ (users d)) as [user|]; [|constructor].
    destruct (_ <=? _); simpl; [apply tw_revoke|].
    destruct (storedDate _); simpl; [apply tw_rotate|constructor].
  - rewrite serve_logout. simpl.
    destruct (truthy _); simpl; [apply tw_revoke|constructor].
Qed.

Lemma step_users (env : Env) (d : Db) (c : Call) :
  usersWrite (users d) (users (step env d c)).
Proof.
  unfold step, handle. destruct (route c).
  - rewrite serve_register.
    destruct (_ || _); [constructor|].
    destruct (find _ _); [constructor|].
    simpl. destruct (storedDate _); simpl; apply uw_create.
  - rewrite serve_login.
    destruct (_ || _); [constructor|].
    destruct (find _ _) as [user|]; [|constructor].
    destruct (negb _); [constructor|].
    destruct (storedDate _); simpl; [apply uw_login|constructor].
  - rewrite serve_refresh.
    destruct (negb _); [constructor|]. simpl.
    destruct (find _ (refreshTokens d)) as [row|]; [|constructor].
    destruct (find _ (users d)) as [user|]; [|constructor].
    destruct (_ <=? _); simpl; [constructor|].
    destruct (storedDate _); simpl; constructor.
  - rewrite serve_logout. simpl.
    destruct (truthy _); simpl; constructor.
Qed.

(** Revoking a row, or rotating it to another digest, never makes it a
    live row of the digest [h]. *)
Lemma revoked_not_live (h : string) (r : RefreshToken.t) :
  liveWith h (RefreshToken.set_revoked true r) = false.
Proof. unfold liveWith. simpl. apply andb_false_r. Qed.

Lemma rotated_not_live (h h' : string) (exp : Z) (ip ua : option string)
    (r : RefreshToken.t) :
  h' <> h ->
  liveWith h (RefreshToken.rotate h' exp ip ua r) = false.
Proof.
  intros Hne. unfold liveWith. simpl.
  apply String.eqb_neq in Hne. rewrite Hne. reflexivity.
Qed.

Lemma tokensWrite_noLive (h h' : string) (rows rows' : list RefreshToken.t) :
  tokensWrite h' rows rows' ->
  h' <> h ->
  existsb (liveWith h) rows = false ->
  existsb (liveWith h) rows' = false.
Proof.
  intros Hw Hne Hno. destruct Hw as [|r Hr|c|i h0 exp ip ua].
  - exact Hno.
  - rewrite existsb_app, Hno. simpl.
    unfold liveWith. rewrite Hr. apply String.eqb_neq in Hne.
    rewrite Hne. reflexivity.
  - apply existsb_false_forall. intros y Hy.
    apply In_updateWhere in Hy. destruct Hy as (x & Hx & ->).
    destruct (c x); [apply revoked_not_live|].
    rewrite existsb_false_forall in Hno. auto.
  - apply existsb_false_forall. intros y Hy.
    apply In_updateWhere in Hy. destruct Hy as (x & Hx & ->).
    destruct (rotationKey i h0 x); [apply rotated_not_live; exact Hne|].
    rewrite existsb_false_forall in Hno. auto.
Qed.

(** A digest with no live row stays so under every request that draws a
    secret of another digest. *)
Lemma step_noLive (env : Env) (h : string) (d : Db) (c : Call) :
  drawsOther h c -> noLive h d -> noLive h (step env d c).
Proof.
  unfold noLive, drawsOther. intros Hne Hno.
  exact (tokensWrite_noLive (step_tokens env d c) Hne Hno).
Qed.

Lemma exec_noLive (env : Env) (h : string) (cs : list Call) (d : Db) :
  Forall (drawsOther h) cs -> noLive h d -> noLive h (exec env cs d).
Proof.
  unfold exec. revert d.
  induction cs as [|c cs IH]; intros d Hall Hno; simpl; [exact Hno|].
  inversion Hall as [|c' cs' Hc Hcs]; subst.
  apply IH; [exact Hcs|]. apply step_noLive; assumption.
Qed.

(** No request removes a user or changes an email. *)
Lemma usersWrite_registered (e : string) (rows rows' : list User.t) :
  usersWrite rows rows' ->
  existsb (hasEmail e) rows = true ->
  existsb (hasEmail e) rows' = true.
Proof.
  intros Hw He. destruct Hw as [|u|c t].
  - exact He.
  - rewrite existsb_app, He. reflexivity.
  - rewrite existsb_updateWhere_stable; [exact He|].
    intros r. reflexivity.
Qed.

Lemma exec_registered (env : Env) (e : string) (cs : list Call) (d : Db) :
  registered e d -> registered e (exec env cs d).
Proof.
  unfold exec, registered. revert d.
  induction cs as [|c cs IH]; intros d He; simpl; [exact He|].
  apply IH. exact (usersWrite_registered e (step_users env d c) He).
Qed.

(** The refresh route on a digest with no live row. *)
Lemma refresh_noLive (env : Env) (a : Ambient) (q : Req.t) (d : Db) :
  truthy (Req.refreshToken q) = true ->
  noLive (sha256 (str (Req.refreshToken q))) d ->
  serve (refresh env a q) d =
  (mkResponse 401 (Message "Invalid refresh token") [], d).
Proof.
  intros Ht Hno. rewrite serve_refresh, Ht. simpl.
  apply find_none_existsb in Hno. rewrite Hno. reflexivity.
Qed.

(** When at most one live row carries [h], writing the first of them out
    of the filter leaves none. *)
Lemma first_live_only (h : string) (rows : list RefreshToken.t)
    (row : RefreshToken.t) (c : RefreshToken.t -> bool)
    (data : RefreshToken.t -> RefreshToken.t) :
  find (liveWith h) rows = Some row ->
  (countWhere (liveWith h) rows <= 1)%nat ->
  c row = true ->
  (forall r, liveWith h (data r) = false) ->
  existsb (liveWith h) (updateWhere c data rows) = false.
Proof.
  intros Hf Hc Hrow Hdata.
  destruct (find_first _ _ Hf) as (before & after & -> & Hlive & Hb).
  rewrite countWhere_app in Hc. unfold countWhere in Hc. simpl in Hc.
  rewrite Hlive in Hc. simpl in Hc.
  assert (Hafter : existsb (liveWith h) after = false).
  { apply countWhere_zero. unfold countWhere. lia. }
  assert (Hbefore : existsb (liveWith h) before = false).
  { apply existsb_false_forall. intros r Hr.
    rewrite forallb_forall in Hb. specialize (Hb r Hr).
    destruct (liveWith h r); [discriminate|reflexivity]. }
  apply existsb_false_forall. intros y Hy.
  apply In_updateWhere in Hy. destruct Hy as (x & Hx & ->).
  destruct (c x) eqn:Hcx; [apply Hdata|].
  apply in_app_or in Hx. destruct Hx as [Hx|[<-|Hx]].
  - rewrite existsb_false_forall in Hbefore. auto.
  - congruence.
  - rewrite existsb_false_forall in Hafter. auto.
Qed.

Lemma rotationKey_hash (i : nat) (h : string) (r : RefreshToken.t) :
  rotationKey i h r = true -> RefreshToken.tokenHash r = h.
Proof.
  unfold rotationKey, liveWith. intros Hk.
  apply andb_true_iff in Hk. destruct Hk as [_ Hk].
  apply andb_true_iff in Hk. destruct Hk as [Hk _].
  apply String.eqb_eq. exact Hk.
Qed.

(** A digest of the table after a rotation is the new one, taken by a row
    of the key, or was in the table before. *)
Lemma rotated_hashes (i : nat) (h h' : string) (exp : Z)
    (ip ua : option string) (rows : list RefreshToken.t) (g : string) :
  In g (map RefreshToken.tokenHash
          (updateWhere (rotationKey i h)
             (RefreshToken.rotate h' exp ip ua) rows)) ->
  (g = h' /\ In h (map RefreshToken.tokenHash rows)) \/
  In g (map RefreshToken.tokenHash rows).
Proof.
  intros Hin. apply in_map_iff in Hin. destruct Hin as (y & <- & Hy).
  apply In_updateWhere in Hy. destruct Hy as (x & Hx & ->).
  destruct (rotationKey i h x) eqn:Hk.
  - left. split; [reflexivity|].
    apply in_map_iff. exists x. split; [|exact Hx].
    apply rotationKey_hash with (i := i). exact Hk.
  - right. apply in_map. exact Hx.
Qed.

Lemma rotate_hashes_NoDup (i : nat) (h h' : string) (exp : Z)
    (ip ua : option string) (rows : list RefreshToken.t) :
  NoDup (map RefreshToken.tokenHash rows) ->
  ~ In h' (map RefreshToken.tokenHash rows) ->
  NoDup (map RefreshToken.tokenHash
           (updateWhere (rotationKey i h)
              (RefreshToken.rotate h' exp ip ua) rows)).
Proof.
  induction rows as [|x rest IH]; simpl; intros Hnd Hnew; [constructor|].
  inversion Hnd as [|y l Hx Hrest]; subst.
  assert (Hnew' : ~ In h' (map RefreshToken.tokenHash rest)) by tauto.
  constructor; [|apply IH; assumption].
  intros Hin. apply rotated_hashes in Hin.
  destruct (rotationKey i h x) eqn:Hk; simpl in Hin.
  - apply rotationKey_hash in Hk. rewrite Hk in Hx.
    destruct Hin as [[_ Hh]|Hin]; contradiction.
  - destruct Hin as [[Hg _]|Hin]; [|contradiction].
    apply Hnew. left. exact Hg.
Qed.

Lemma tokensWrite_hashes_NoDup (h' : string)
    (rows rows' : list RefreshToken.t) :
  tokensWrite h' rows rows' ->
  ~ In h' (map RefreshToken.tokenHash rows) ->
  NoDup (map RefreshToken.tokenHash rows) ->
  NoDup (map RefreshToken.tokenHash rows').
Proof.
  intros Hw Hnew Hnd. destruct Hw as [|r Hr|c|i h exp ip ua].
  - exact Hnd.
  - rewrite map_app. simpl. rewrite Hr. apply NoDup_snoc; assumption.
  - rewrite map_updateWhere_stable; [exact Hnd|reflexivity].
  - apply rotate_hashes_NoDup; assumption.
Qed.

Lemma tokensWrite_hashes_incl (h' : string)
    (rows rows' : list RefreshToken.t) :
  tokensWrite h' rows rows' ->
  incl (map RefreshToken.tokenHash rows')
       (h' :: map RefreshToken.tokenHash rows).
Proof.
  intros Hw g Hg. destruct Hw as [|r Hr|c|i h exp ip ua].
  - right. exact Hg.
  - rewrite map_app in Hg. apply in_app_or in Hg.
    destruct Hg as [Hg|[<-|[]]]; [right; exact Hg|left; auto].
  - rewrite map_updateWhere_stable in Hg; [right; exact Hg|reflexivity].
  - apply rotated_hashes in Hg.
    destruct Hg as [[-> _]|Hg]; [left; reflexivity|right; exact Hg].
Qed.

(** Served one after the other, requests that draw secrets of pairwise
    distinct digests, none of them in the table yet, keep the digests of the
    table pairwise distinct and among those drawn. *)
Lemma exec_hashes (env : Env) (cs : list Call) :
  forall d : Db,
    NoDup (tokenHashes d) ->
    NoDup (map callDigest cs) ->
    (forall c, In c cs -> ~ In (callDigest c) (tokenHashes d)) ->
    NoDup (tokenHashes (exec env cs d)) /\
    incl (tokenHashes (exec env cs d)) (tokenHashes d ++ map callDigest cs).
Proof.
  induction cs as [|c rest IH]; intros d Hnd Hcs Hnew; simpl.
  - split; [exact Hnd|]. rewrite app_nil_r. apply incl_refl.
  - inversion Hcs as [|x xs Hc Hrest]; subst.
    pose proof (step_tokens env d c) as Hw. fold (callDigest c) in Hw.
    assert (Hnd1 : NoDup (tokenHashes (step env d c))).
    { apply (tokensWrite_hashes_NoDup Hw); [|exact Hnd].
      apply Hnew. left. reflexivity. }
    pose proof (tokensWrite_hashes_incl Hw) as Hin1.
    assert (Hnew1 : forall c', In c' rest ->
              ~ In (callDigest c') (tokenHashes (step env d c))).
    { intros c' Hc' Hin. apply Hin1 in Hin. destruct Hin as [Heq|Hin].
      - apply Hc. rewrite Heq. apply in_map. exact Hc'.
      - apply (Hnew c'); [right; exact Hc'|exact Hin]. }
    destruct (IH (step env d c) Hnd1 Hrest Hnew1) as [Hnd2 Hin2].
    split; [exact Hnd2|].
    intros g Hg. apply Hin2 in Hg. apply in_app_or in Hg.
    apply in_or_app. destruct Hg as [Hg|Hg].
    + apply Hin1 in Hg. destruct Hg as [<-|Hg]; [right; left|left]; auto.
    + right. right. exact Hg.
Qed.

Lemma reachable_hashes (env : Env) (cs : list Call) :
  NoDup (map callDigest cs) ->
  NoDup (tokenHashes (exec env cs emptyDb)) /\
  incl (tokenHashes (exec env cs emptyDb)) (map callDigest cs).
Proof.
  intros Hcs. apply (exec_hashes env cs emptyDb); [constructor|exact Hcs|].
  intros c _ [].
Qed.

(** Pairwise distinct digests leave at most one live row per digest. *)
Lemma NoDup_liveCount (h : string) (d : Db) :
  NoDup (tokenHashes d) -> (liveCount h d <= 1)%nat.
Proof.
  unfold tokenHashes, liveCount, countWhere.
  induction (refreshTokens d) as [|x rest IH]; simpl; intros Hnd; [lia|].
  inversion Hnd as [|y l Hx Hrest]; subst.
  destruct (liveWith h x) eqn:Hl; simpl; [|auto].
  assert (Hz : filter (liveWith h) rest = []).
  { destruct (filter (liveWith h) rest) as [|r rs] eqn:Hf; [reflexivity|].
    exfalso. apply Hx.
    assert (Hr : In r (filter (liveWith h) rest)) by (rewrite Hf; left; auto).
    apply filter_In in Hr. destruct Hr as [Hin Hlr].
    unfold liveWith in Hl, Hlr.
    apply andb_true_iff in Hl. destruct Hl as [Hl _].
    apply andb_true_iff in Hlr. destruct Hlr as [Hlr _].
    apply String.eqb_eq in Hl. apply String.eqb_eq in Hlr.
    rewrite Hl, <- Hlr. apply in_map. exact Hin. }
  rewrite Hz. simpl. lia.
Qed.

End Invariants.

(* ===================================================================== *)
(** * Rotation *)
(* ===================================================================== *)

Section Rotation.

Context {P : Platform}.

(** What a successful refresh tells about the database it ran on. *)
Lemma refresh_ok_inv (env : Env) (a : Ambient) (q : Req.t) (d : Db) :
  status (fst (serve (refresh env a q) d)) = 200 ->
  exists row user exp,
    truthy (Req.refreshToken q) = true /\
    find (liveWith (sha256 (str (Req.refreshToken q)))) (refreshTokens d)
      = Some row /\
    find (hasUserId (RefreshToken.userId row)) (users d) = Some user /\
    now a < RefreshToken.expiresAt row /\
    storedDate (newDate (fromNow (now a) (daysToMs (expDays env "7"))))
      = Some exp /\
    serve (refresh env a q) d =
    (mkResponse 200
       (Token (signAccessToken (User.id user) (User.role user)))
       [SetCookie "accessToken"
          (signAccessToken (User.id user) (User.role user))
          (Some 900000) (cookieOptions env);
        SetCookie "refreshToken" (randomHex a)
          (daysToMs (expDays env "7")) (cookieOptions env)],
     mkDb (users d)
       (updateWhere
          (rotationKey (RefreshToken.id row)
             (sha256 (str (Req.refreshToken q))))
          (RefreshToken.rotate (sha256 (randomHex a)) exp
             (orUndefined (Req.ip q)) (orUndefined (Req.userAgent q)))
          (refreshTokens d))).
Proof.
  rewrite serve_refresh.
  destruct (truthy (Req.refreshToken q)); simpl; [|discriminate].
  destruct (find _ (refreshTokens d)) as [row|] eqn:Hrow; simpl;
    [|discriminate].
  destruct (find _ (users d)) as [user|] eqn:Huser; simpl; [|discriminate].
  destruct (RefreshToken.expiresAt row <=? now a) eqn:Hexp; simpl;
    [discriminate|].
  destruct (storedDate _) as [exp|] eqn:Hdate; simpl; [|discriminate].
  intros _. exists row, user, exp.
  apply Z.leb_gt in Hexp.
  exact (conj eq_refl (conj eq_refl (conj Huser
           (conj Hexp (conj eq_refl eq_refl))))).
Qed.

(** The conditional write of the rotation, when no row meets its key. *)
Lemma rotate_zero_rows (env : Env) (a : Ambient) (q : Req.t) (h : string)
    (existing : RefreshToken.t) (user : User.t) (d : Db) :
  storedDate (newDate (fromNow (now a) (daysToMs (expDays env "7")))) <> None ->
  countWhere (rotationKey (RefreshToken.id existing) h) (refreshTokens d)
    = 0%nat ->
  serve (refresh_rotate env a q h existing user) d =
  (mkResponse 401 (Message "Invalid or already rotated refresh token") [], d).
Proof.
  intros Hdate Hz.
  unfold refresh_rotate, refreshToken_updateMany, validDate, serve, json,
    bind, ret, throw, getDb, putDb.
  destruct (storedDate _) as [exp|]; [|congruence]. simpl.
  rewrite Hz. simpl.
  apply countWhere_zero in Hz. rewrite (updateWhere_none _ _ _ Hz).
  destruct d; reflexivity.
Qed.

(** A successful rotation leaves no live row of the old digest when there
    was at most one. *)
Lemma refresh_ok_noLive (env : Env) (a : Ambient) (q : Req.t) (d : Db) :
  status (fst (serve (refresh env a q) d)) = 200 ->
  (liveCount (sha256 (str (Req.refreshToken q))) d <= 1)%nat ->
  sha256 (randomHex a) <> sha256 (str (Req.refreshToken q)) ->
  noLive (sha256 (str (Req.refreshToken q))) (snd (serve (refresh env a q) d)).
Proof.
  intros Hok Hone Hfresh.
  destruct (refresh_ok_inv env a q d Hok)
    as (row & user & exp & _ & Hrow & _ & _ & _ & Hrun).
  rewrite Hrun. unfold noLive. simpl.
  apply first_live_only with (row := row).
  - exact Hrow.
  - exact Hone.
  - apply find_some in Hrow. destruct Hrow as [_ Hl].
    unfold rotationKey. rewrite Nat.eqb_refl, Hl. reflexivity.
  - intros r. apply rotated_not_live. exact Hfresh.
Qed.

(** C1. Refresh-secret single use.  When [Refresh(S)] succeeds it hands
    out the successor secret drawn for it and performs the rotation as one
    conditional write keyed on the row's id, its current token hash and
    [revoked = false]; provided the secret's digest was carried by at most
    one non-revoked row and the successor's digest differs from it, every
    later [Refresh(S)], after any requests that draw secrets of other
    digests, fails with [InvalidToken].  Whenever the conditional write,
    of a date that the store takes, meets no row, the rotation fails with
    [InvalidToken] and writes nothing. *)
Theorem refresh_secret_single_use (env : Env) (a : Ambient) (q : Req.t)
    (d : Db) :
  let h := sha256 (str (Req.refreshToken q)) in
  let first := serve (refresh env a q) d in
  status (fst first) = 200 ->
  (liveCount h d <= 1)%nat ->
  sha256 (randomHex a) <> h ->
  In (SetCookie "refreshToken" (randomHex a) (daysToMs (expDays env "7"))
        (cookieOptions env)) (cookies (fst first)) /\
  (exists row exp,
     find (liveWith h) (refreshTokens d) = Some row /\
     snd first =
     mkDb (users d)
       (updateWhere (rotationKey (RefreshToken.id row) h)
          (RefreshToken.rotate (sha256 (randomHex a)) exp
             (orUndefined (Req.ip q)) (orUndefined (Req.userAgent q)))
          (refreshTokens d))) /\
  (forall (later : list Call) (a' : Ambient) (ip ua : option string),
     Forall (drawsOther h) later ->
     InvalidToken
       (fst (serve (refresh env a' (withCookie (Req.refreshToken q) ip ua))
               (exec env later (snd first))))) /\
  (forall (a2 : Ambient) (q2 : Req.t) (h2 : string)
          (existing : RefreshToken.t) (user : User.t) (d2 : Db),
     storedDate (newDate (fromNow (now a2) (daysToMs (expDays env "7"))))
       <> None ->
     countWhere (rotationKey (RefreshToken.id existing) h2) (refreshTokens d2)
       = 0%nat ->
     let r := serve (refresh_rotate env a2 q2 h2 existing user) d2 in
     InvalidToken (fst r) /\ snd r = d2).
Proof.
  intros h first Hok Hone Hfresh.
  pose proof (refresh_ok_noLive env a q d Hok Hone Hfresh) as Hgone.
  destruct (refresh_ok_inv env a q d Hok)
    as (row & user & exp & Ht & Hrow & Huser & Hlt & Hdate & Hrun).
  fold h in Hrow, Hrun, Hgone. subst first. rewrite Hrun in *. simpl.
  split; [auto|]. split; [exists row, exp; auto|]. split.
  - intros later a' ip ua Hlater.
    rewrite refresh_noLive.
    + simpl. split; [reflexivity|]. right; left; reflexivity.
    + exact Ht.
    + apply exec_noLive; assumption.
  - intros a2 q2 h2 existing user2 d2 Hd Hz.
    rewrite rotate_zero_rows by assumption. simpl.
    split; [|reflexivity]. split; [reflexivity|]. right; right; reflexivity.
Qed.

(** X1. Single use on the databases the server can reach: when the
    secrets drawn over the whole run, from the empty database on, have
    pairwise distinct digests, a refresh secret that was rotated once is
    refused with [InvalidToken] ever after. *)
Theorem reachable_refresh_single_use (env : Env) (history later : list Call)
    (a a' : Ambient) (q : Req.t) (ip ua : option string) :
  let d := exec env history emptyDb in
  NoDup (map callDigest (history ++ mkCall Refresh a q :: later)) ->
  status (fst (serve (refresh env a q) d)) = 200 ->
  InvalidToken
    (fst (serve (refresh env a' (withCookie (Req.refreshToken q) ip ua))
            (exec env later (snd (serve (refresh env a q) d))))).
Proof.
  intros d Hnd Hok.
  destruct (refresh_ok_inv env a q d Hok)
    as (row & user & exp & Ht & Hrow & _ & _ & _ & _).
  rewrite map_app in Hnd.
  assert (Hhist : NoDup (map callDigest history))
    by (eapply NoDup_app_left; exact Hnd).
  destruct (reachable_hashes env history Hhist) as [Hdistinct Hdrawn].
  fold d in Hdistinct, Hdrawn.
  assert (Hin : In (sha256 (str (Req.refreshToken q)))
                  (map callDigest history)).
  { apply Hdrawn. unfold tokenHashes.
    apply find_some in Hrow. destruct Hrow as [Hrin Hl].
    unfold liveWith in Hl. apply andb_true_iff in Hl. destruct Hl as [Hl _].
    apply String.eqb_eq in Hl. rewrite <- Hl. apply in_map. exact Hrin. }
  assert (Hnot : ~ In (sha256 (str (Req.refreshToken q)))
                     (map callDigest (mkCall Refresh a q :: later)))
    by (eapply NoDup_app_disjoint; [exact Hnd|exact Hin]).
  simpl in Hnot.
  rewrite refresh_noLive.
  - split; [reflexivity|]. right; left; reflexivity.
  - exact Ht.
  - simpl. apply exec_noLive.
    + apply Forall_forall. intros c Hc Heq. apply Hnot. right.
      unfold drawsOther in Heq. fold (callDigest c) in Heq.
      rewrite <- Heq. apply in_map. exact Hc.
    + apply refresh_ok_noLive.
      * exact Hok.
      * apply NoDup_liveCount. exact Hdistinct.
      * intros Heq. apply Hnot. left. unfold callDigest. exact Heq.
Qed.

(** X4. From the empty database, requests that draw secrets of pairwise
    distinct digests leave pairwise distinct token hashes in the table,
    each the digest of a secret that was drawn; so no digest is carried by
    two non-revoked rows. *)
Theorem reachable_token_hashes_distinct (env : Env) (cs : list Call) :
  NoDup (map callDigest cs) ->
  NoDup (tokenHashes (exec env cs emptyDb)) /\
  incl (tokenHashes (exec env cs emptyDb)) (map callDigest cs) /\
  (forall h : string, (liveCount h (exec env cs emptyDb) <= 1)%nat).
Proof.
  intros Hcs. destruct (reachable_hashes env cs Hcs) as [Hnd Hin].
  split; [exact Hnd|]. split; [exact Hin|].
  intros h. apply NoDup_liveCount. exact Hnd.
Qed.

(** X2. Two refreshes that read the same row before either wrote: once
    the first has rotated it, the conditional write of the second, of a
    date that the store takes, meets no row; the second fails with
    [InvalidToken], hands out no secret and writes nothing. *)
Theorem concurrent_refresh_one_wins (env : Env) (a1 a2 : Ambient)
    (q1 q2 : Req.t) (h : string) (row : RefreshToken.t) (user : User.t)
    (d : Db) :
  let first := serve (refresh_rotate env a1 q1 h row user) d in
  let second := serve (refresh_rotate env a2 q2 h row user) (snd first) in
  status (fst first) = 200 ->
  sha256 (randomHex a1) <> h ->
  storedDate (newDate (fromNow (now a2) (daysToMs (expDays env "7"))))
    <> None ->
  InvalidToken (fst second) /\
  cookies (fst second) = [] /\
  snd second = snd first.
Proof.
  intros first second Hok Hfresh Hdate.
  assert (Hz : countWhere (rotationKey (RefreshToken.id row) h)
                 (refreshTokens (snd first)) = 0%nat).
  { subst first. rewrite serve_refresh_rotate in *.
    destruct (storedDate (newDate (fromNow (now a1) _))) as [exp|];
      [|discriminate Hok].
    destruct (Nat.eqb _ 0); [discriminate Hok|]. simpl.
    apply countWhere_zero. apply existsb_false_forall. intros y Hy.
    apply In_updateWhere in Hy. destruct Hy as (x & Hx & ->).
    destruct (rotationKey (RefreshToken.id row) h x) eqn:Hk; [|exact Hk].
    unfold rotationKey. rewrite rotated_not_live by exact Hfresh.
    apply andb_false_r. }
  subst second. rewrite rotate_zero_rows by assumption. simpl.
  split; [|split; reflexivity].
  split; [reflexivity|]. right; right; reflexivity.
Qed.

End Rotation.

Lemma refresh_secret_single_use_witness :
  status (fst (serve (@refresh demo noEnv (mkAmbient 2000 "s2") (presents "s1"))
                 dbAlice)) = 200 /\
  (liveCount (@sha256 demo "s1") dbAlice <= 1)%nat /\
  @sha256 demo "s2" <> @sha256 demo "s1" /\
  InvalidToken
    (fst (serve (@refresh demo noEnv (mkAmbient 4000 "s4") (presents "s1"))
            (@exec demo noEnv
               [mkCall Login (mkAmbient 3000 "s3") alice]
               (snd (serve (@refresh demo noEnv (mkAmbient 2000 "s2")
                              (presents "s1")) dbAlice))))).
Proof.
  assert (H1 : status (fst (serve (@refresh demo noEnv (mkAmbient 2000 "s2")
                                     (presents "s1")) dbAlice)) = 200)
    by reflexivity.
  assert (H2 : (liveCount (@sha256 demo "s1") dbAlice <= 1)%nat)
    by (vm_compute; apply le_n).
  assert (H3 : @sha256 demo "s2" <> @sha256 demo "s1")
    by (simpl; discriminate).
  split; [exact H1|]. split; [exact H2|]. split; [exact H3|].
  destruct (@refresh_secret_single_use demo noEnv (mkAmbient 2000 "s2")
              (presents "s1") dbAlice H1 H2 H3) as (_ & _ & Hlater & _).
  apply (Hlater [mkCall Login (mkAmbient 3000 "s3") alice]
           (mkAmbient 4000 "s4") None None).
  constructor; [|constructor].
  unfold drawsOther. simpl. discriminate.
Defined.

Lemma reachable_refresh_single_use_witness :
  InvalidToken
    (fst (serve (@refresh demo noEnv (mkAmbient 4000 "s4") (presents "s1"))
            (@exec demo noEnv [mkCall Login (mkAmbient 3000 "s3") alice]
               (snd (serve (@refresh demo noEnv (mkAmbient 2000 "s2")
                              (presents "s1"))
                       (@exec demo noEnv
                          [mkCall Register (mkAmbient 1000 "s1") alice]
                          emptyDb)))))).
Proof.
  apply (@reachable_refresh_single_use demo noEnv
           [mkCall Register (mkAmbient 1000 "s1") alice]
           [mkCall Login (mkAmbient 3000 "s3") alice]
           (mkAmbient 2000 "s2") (mkAmbient 4000 "s4") (presents "s1")
           None None).
  - repeat constructor; simpl; intuition discriminate.
  - reflexivity.
Defined.

Lemma reachable_token_hashes_distinct_witness :
  NoDup
    (tokenHashes
       (@exec demo noEnv
          [mkCall Register (mkAmbient 1000 "s1") alice;
           mkCall Login (mkAmbient 2000 "s2") alice;
           mkCall Refresh (mkAmbient 3000 "s3") (presents "s2")]
          emptyDb)).
Proof.
  apply (@reachable_token_hashes_distinct demo noEnv
           [mkCall Register (mkAmbient 1000 "s1") alice;
            mkCall Login (mkAmbient 2000 "s2") alice;
            mkCall Refresh (mkAmbient 3000 "s3") (presents "s2")]).
  repeat constructor; simpl; intuition discriminate.
Defined.

Lemma concurrent_refresh_one_wins_witness :
  status (fst (serve (@refresh_rotate demo noEnv (mkAmbient 2000 "s2")
                        (presents "s1") "sha256:s1"
                        (RefreshToken.mk 1 "sha256:s1" 1 1000 2592001000
                           false None None)
                        (User.mk 1 "a@x.com" "argon2:P@ssw0rd!" (Some "A")
                           None false 1000 1000 None "user"))
                 dbAlice)) = 200 /\
  InvalidToken
    (fst (serve (@refresh_rotate demo noEnv (mkAmbient 2001 "s3")
                   (presents "s1") "sha256:s1"
                   (RefreshToken.mk 1 "sha256:s1" 1 1000 2592001000
                      false None None)
                   (User.mk 1 "a@x.com" "argon2:P@ssw0rd!" (Some "A")
                      None false 1000 1000 None "user"))
            (snd (serve (@refresh_rotate demo noEnv (mkAmbient 2000 "s2")
                           (presents "s1") "sha256:s1"
                           (RefreshToken.mk 1 "sha256:s1" 1 1000 2592001000
                              false None None)
                           (User.mk 1 "a@x.com" "argon2:P@ssw0rd!" (Some "A")
                              None false 1000 1000 None "user"))
                    dbAlice)))).
Proof.
  split; [reflexivity|].
  apply (@concurrent_refresh_one_wins demo noEnv (mkAmbient 2000 "s2")
           (mkAmbient 2001 "s3") (presents "s1") (presents "s1") "sha256:s1"
           (RefreshToken.mk 1 "sha256:s1" 1 1000 2592001000 false None None)
           (User.mk 1 "a@x.com" "argon2:P@ssw0rd!" (Some "A") None false
              1000 1000 None "user")
           dbAlice).
  - reflexivity.
  - simpl. discriminate.
  - simpl. discriminate.
Defined.

(* ===================================================================== *)
(** * Expiry and logout *)
(* ===================================================================== *)

Section Revocation.

Context {P : Platform}.

(** C2. Expired-refresh handling.  When the row found for the presented
    secret (the first non-revoked row with its digest, whose user exists)
    has [expiresAt <= now], the refresh route marks that row revoked and
    fails with [Expired]; provided no other non-revoked row carried the
    digest, every later refresh with the same secret, after any requests
    that draw secrets of other digests, fails with [InvalidToken]. *)
Theorem refresh_expired_revokes (env : Env) (a : Ambient) (q : Req.t)
    (d : Db) (row : RefreshToken.t) (user : User.t) :
  let h := sha256 (str (Req.refreshToken q)) in
  let first := serve (refresh env a q) d in
  truthy (Req.refreshToken q) = true ->
  find (liveWith h) (refreshTokens d) = Some row ->
  find (hasUserId (RefreshToken.userId row)) (users d) = Some user ->
  RefreshToken.expiresAt row <= now a ->
  (liveCount h d <= 1)%nat ->
  Expired (fst first) /\
  snd first =
    mkDb (users d)
      (updateWhere (hasTokenId (RefreshToken.id row))
         (RefreshToken.set_revoked true) (refreshTokens d)) /\
  (forall r : RefreshToken.t,
     In r (refreshTokens (snd first)) ->
     RefreshToken.id r = RefreshToken.id row ->
     RefreshToken.revoked r = true) /\
  (forall (later : list Call) (a' : Ambient) (ip ua : option string),
     Forall (drawsOther h) later ->
     InvalidToken
       (fst (serve (refresh env a' (withCookie (Req.refreshToken q) ip ua))
               (exec env later (snd first))))).
Proof.
  intros h first Ht Hrow Huser Hexp Hone.
  assert (Hrun : first =
    (mkResponse 401 (Message "Refresh token expired")
       [ClearCookie "refreshToken" (cookieOptions env)],
     mkDb (users d)
       (updateWhere (hasTokenId (RefreshToken.id row))
          (RefreshToken.set_revoked true) (refreshTokens d)))).
  { subst first. rewrite serve_refresh, Ht. simpl. fold h.
    rewrite Hrow, Huser.
    apply Z.leb_le in Hexp. rewrite Hexp. reflexivity. }
  rewrite Hrun. simpl.
  split; [split; reflexivity|]. split; [reflexivity|]. split.
  - intros r Hin Hid. apply In_updateWhere in Hin.
    destruct Hin as (x & Hx & ->).
    unfold hasTokenId in *. destruct (Nat.eqb_spec (RefreshToken.id x)
                                        (RefreshToken.id row)) as [Hxi|Hxi].
    + reflexivity.
    + contradiction.
  - intros later a' ip ua Hlater.
    rewrite refresh_noLive.
    + simpl. split; [reflexivity|]. right; left; reflexivity.
    + exact Ht.
    + apply exec_noLive; [exact Hlater|].
      unfold noLive. simpl. fold h.
      apply first_live_only with (row := row).
      * exact Hrow.
      * exact Hone.
      * unfold hasTokenId. apply Nat.eqb_refl.
      * intros r. apply revoked_not_live.
Qed.

(** Once every live row of a digest is revoked, none is left. *)
Lemma revoke_all_noLive (h : string) (rows : list RefreshToken.t) :
  existsb (liveWith h)
    (updateWhere (liveWith h) (RefreshToken.set_revoked true) rows) = false.
Proof.
  apply existsb_false_forall. intros y Hy.
  apply In_updateWhere in Hy. destruct Hy as (x & Hx & ->).
  destruct (liveWith h x) eqn:Hl; [apply revoked_not_live|exact Hl].
Qed.

Lemma logout_noLive (env : Env) (q : Req.t) (d : Db) :
  truthy (Req.refreshToken q) = true ->
  noLive (sha256 (str (Req.refreshToken q))) (snd (serve (logout env q) d)).
Proof.
  intros Ht. rewrite serve_logout, Ht. apply revoke_all_noLive.
Qed.

(** A second logout finds nothing to revoke. *)
Lemma logout_again (env : Env) (q : Req.t) (d : Db) :
  snd (serve (logout env q) (snd (serve (logout env q) d))) =
  snd (serve (logout env q) d).
Proof.
  rewrite !serve_logout. simpl.
  destruct (truthy (Req.refreshToken q)); [|reflexivity]. simpl.
  rewrite (updateWhere_none _ _ _ (revoke_all_noLive _ _)). reflexivity.
Qed.

Lemma refresh_after_logout (env : Env) (q : Req.t) (d : Db) (a : Ambient)
    (ip ua : option string) :
  InvalidToken
    (fst (serve (refresh env a (withCookie (Req.refreshToken q) ip ua))
            (snd (serve (logout env q) d)))).
Proof.
  destruct (truthy (Req.refreshToken q)) eqn:Ht.
  - rewrite refresh_noLive.
    + split; [reflexivity|]. right; left; reflexivity.
    + exact Ht.
    + simpl. apply logout_noLive. exact Ht.
  - rewrite serve_refresh. simpl. rewrite Ht. simpl.
    split; [reflexivity|]. left; reflexivity.
Qed.

(** C3. Logout idempotence.  For every refresh secret, matching a row or
    not, and also when no cookie is sent, logout answers 200; it revokes
    every non-revoked row that carries the secret's digest; a second
    logout with the same secret answers 200 again and writes nothing; and
    after either call a refresh with that secret fails with
    [InvalidToken]. *)
Theorem logout_idempotent (env : Env) (q : Req.t) (d : Db) :
  let once := serve (logout env q) d in
  let twice := serve (logout env q) (snd once) in
  status (fst once) = 200 /\
  body (fst once) = Message "Logged out successfully" /\
  (truthy (Req.refreshToken q) = true ->
   noLive (sha256 (str (Req.refreshToken q))) (snd once) /\
   users (snd once) = users d /\
   refreshTokens (snd once) =
     updateWhere (liveWith (sha256 (str (Req.refreshToken q))))
       (RefreshToken.set_revoked true) (refreshTokens d)) /\
  status (fst twice) = 200 /\
  body (fst twice) = Message "Logged out successfully" /\
  snd twice = snd once /\
  (forall (a : Ambient) (ip ua : option string),
     let again := withCookie (Req.refreshToken q) ip ua in
     InvalidToken (fst (serve (refresh env a again) (snd once))) /\
     InvalidToken (fst (serve (refresh env a again) (snd twice)))).
Proof.
  intros once twice.
  assert (Htwice : snd twice = snd once) by apply logout_again.
  split; [subst once; rewrite serve_logout; reflexivity|].
  split; [subst once; rewrite serve_logout; reflexivity|].
  split.
  { intros Ht. split; [apply logout_noLive; exact Ht|].
    subst once. rewrite serve_logout, Ht. simpl. auto. }
  split; [subst twice; rewrite serve_logout; reflexivity|].
  split; [subst twice; rewrite serve_logout; reflexivity|].
  split; [exact Htwice|].
  intros a ip ua again. rewrite Htwice.
  split; apply refresh_after_logout.
Qed.

End Revocation.

Lemma logout_idempotent_witness :
  truthy (Req.refreshToken (presents "s1")) = true /\
  @noLive (@sha256 demo "s1")
    (snd (serve (@logout demo noEnv (presents "s1")) dbAlice)) /\
  InvalidToken
    (fst (serve (@refresh demo noEnv (mkAmbient 2000 "s2") (presents "s1"))
            (snd (serve (@logout demo noEnv (presents "s1")) dbAlice)))).
Proof.
  destruct (@logout_idempotent demo noEnv (presents "s1") dbAlice)
    as (_ & _ & Hrevoked & _ & _ & _ & Hrefresh).
  split; [reflexivity|].
  split; [exact (proj1 (Hrevoked eq_refl))|].
  exact (proj1 (Hrefresh (mkAmbient 2000 "s2") None None)).
Defined.

Lemma refresh_expired_revokes_witness :
  Expired
    (fst (serve (@refresh demo noEnv (mkAmbient 2592001000 "s2")
                   (presents "s1")) dbAlice)) /\
  InvalidToken
    (fst (serve (@refresh demo noEnv (mkAmbient 2592001001 "s3")
                   (presents "s1"))
            (@exec demo noEnv []
               (snd (serve (@refresh demo noEnv (mkAmbient 2592001000 "s2")
                              (presents "s1")) dbAlice))))).
Proof.
  destruct (@refresh_expired_revokes demo noEnv (mkAmbient 2592001000 "s2")
              (presents "s1") dbAlice
              (RefreshToken.mk 1 "sha256:s1" 1 1000 2592001000 false None None)
              (User.mk 1 "a@x.com" "argon2:P@ssw0rd!" (Some "A") None false
                 1000 1000 None "user")
              eq_refl eq_refl eq_refl)
    as (Hexp & _ & _ & Hlater).
  - simpl. apply Z.le_refl.
  - vm_compute. apply le_n.
  - split; [exact Hexp|].
    apply (Hlater [] (mkAmbient 2592001001 "s3") None None). constructor.
Defined.

(* ===================================================================== *)
(** * What is stored of a refresh secret *)
(* ===================================================================== *)

Section Secrets.

Context {P : Platform}.

(** Case analysis on every test a goal branches on. *)
Ltac by_cases :=
  repeat (match goal with
          | |- context [match ?x with _ => _ end] => destruct x
          end; simpl).

(** C4. Refresh secret never persisted.  In register, login and refresh
    the secret drawn for the request reaches the database only through its
    digest: the row created (or rotated) carries [sha256] of the secret as
    its [tokenHash], and two secrets with the same digest leave the same
    database behind. *)
Theorem refresh_secret_never_persisted (env : Env) (t : Z) (s1 s2 : string)
    (q : Req.t) (d : Db) :
  sha256 s1 = sha256 s2 ->
  (snd (serve (register env (mkAmbient t s1) q) d) =
   snd (serve (register env (mkAmbient t s2) q) d) /\
   snd (serve (login env (mkAmbient t s1) q) d) =
   snd (serve (login env (mkAmbient t s2) q) d) /\
   snd (serve (refresh env (mkAmbient t s1) q) d) =
   snd (serve (refresh env (mkAmbient t s2) q) d)) /\
  (status (fst (serve (register env (mkAmbient t s1) q) d)) = 201 ->
   exists row,
     refreshTokens (snd (serve (register env (mkAmbient t s1) q) d)) =
       (refreshTokens d ++ [row])%list /\
     RefreshToken.tokenHash row = sha256 s1) /\
  (status (fst (serve (login env (mkAmbient t s1) q) d)) = 200 ->
   exists row,
     refreshTokens (snd (serve (login env (mkAmbient t s1) q) d)) =
       (refreshTokens d ++ [row])%list /\
     RefreshToken.tokenHash row = sha256 s1) /\
  (status (fst (serve (refresh env (mkAmbient t s1) q) d)) = 200 ->
   exists key exp ip ua,
     refreshTokens (snd (serve (refresh env (mkAmbient t s1) q) d)) =
       updateWhere key (RefreshToken.rotate (sha256 s1) exp ip ua)
         (refreshTokens d)).
Proof.
  intros Hd. split; [|split; [|split]].
  - rewrite !serve_register, !serve_login, !serve_refresh. simpl.
    rewrite Hd.
    split; [|split]; by_cases; reflexivity.
  - rewrite serve_register.
    destruct (_ || _); [discriminate|].
    destruct (find _ _); [discriminate|]. simpl.
    destruct (storedDate _) as [exp|]; [|discriminate]. simpl.
    intros _. eexists. split; reflexivity.
  - rewrite serve_login.
    destruct (_ || _); [discriminate|].
    destruct (find _ _) as [user|]; [|discriminate].
    destruct (negb _); [discriminate|].
    destruct (storedDate _) as [exp|]; [|discriminate]. simpl.
    intros _. eexists. split; reflexivity.
  - intros Hok. destruct (refresh_ok_inv _ _ _ _ Hok)
      as (row & user & exp & _ & _ & _ & _ & _ & Hrun).
    rewrite Hrun. simpl. do 4 eexists. reflexivity.
Qed.

End Secrets.

Lemma refresh_secret_never_persisted_witness :
  @sha256 firstChar "abc" = @sha256 firstChar "axy" /\
  "abc" <> "axy" /\
  snd (serve (@register firstChar noEnv (mkAmbient 1000 "abc") alice) emptyDb) =
  snd (serve (@register firstChar noEnv (mkAmbient 1000 "axy") alice) emptyDb).
Proof.
  split; [reflexivity|]. split; [discriminate|].
  exact (proj1 (proj1 (@refresh_secret_never_persisted firstChar noEnv 1000
                         "abc" "axy" alice emptyDb eq_refl))).
Defined.

(* ===================================================================== *)
(** * Registration and login *)
(* ===================================================================== *)

Section Accounts.

Context {P : Platform}.

Lemma registered_find (e : string) (d : Db) :
  registered e d -> exists u, find (hasEmail e) (users d) = Some u.
Proof.
  unfold registered. intros He.
  destruct (find (hasEmail e) (users d)) as [u|] eqn:Hf; [eauto|].
  apply find_none_existsb in Hf. congruence.
Qed.

(** A registration whose three fields are present, for an email that a row
    already has, answers 409 and writes nothing. *)
Lemma register_registered (env : Env) (a : Ambient) (q : Req.t) (d : Db) :
  truthy (Req.email q) = true ->
  truthy (Req.password q) = true ->
  truthy (Req.name q) = true ->
  registered (str (Req.email q)) d ->
  serve (register env a q) d = (Conflict, d).
Proof.
  intros He Hp Hn Hreg. rewrite serve_register, He, Hp, Hn. simpl.
  destruct (registered_find Hreg) as [u ->]. reflexivity.
Qed.

(** A registration that got as far as creating the user leaves the email
    in the table, whether the token row could be created or not. *)
Lemma register_registers (env : Env) (a : Ambient) (q : Req.t) (d : Db) :
  status (fst (serve (register env a q) d)) = 201 ->
  registered (str (Req.email q)) (snd (serve (register env a q) d)).
Proof.
  rewrite serve_register.
  destruct (_ || _); [discriminate|].
  destruct (find _ _); [discriminate|]. simpl.
  destruct (storedDate _); [|discriminate]. simpl. intros _.
  unfold registered. simpl. rewrite existsb_app. simpl.
  unfold hasEmail at 2. simpl. rewrite String.eqb_refl.
  apply orb_true_iff. right. reflexivity.
Qed.

(** C5, as the code has it.  Emails are compared as the strings they are:
    registering with an email that a user row has exactly fails with
    [Conflict] and writes nothing; so once a registration with an email has
    succeeded, every later registration with exactly that email, after any
    requests, fails with [Conflict].  A registration that passed its own
    look-up before the row of another was written is stopped when it
    creates its row: the unique column refuses it. *)
Theorem register_same_email_conflict (env : Env) (a a' : Ambient)
    (q q' : Req.t) (d : Db) (later : list Call) :
  status (fst (serve (register env a q) d)) = 201 ->
  truthy (Req.email q') = true ->
  truthy (Req.password q') = true ->
  truthy (Req.name q') = true ->
  str (Req.email q') = str (Req.email q) ->
  (forall d0 : Db,
     registered (str (Req.email q')) d0 ->
     serve (register env a' q') d0 = (Conflict, d0)) /\
  serve (register env a' q')
    (exec env later (snd (serve (register env a q) d))) =
  (Conflict, exec env later (snd (serve (register env a q) d))) /\
  (forall (d0 : Db) (t : Z) (hp n : string) (cs : list CookieOp),
     registered (str (Req.email q')) d0 ->
     user_create t (str (Req.email q')) hp n (mkHState d0 cs) =
     (Throw UniqueConstraint, mkHState d0 cs)).
Proof.
  intros Hok He Hp Hn Hsame.
  assert (Hany : forall d0 : Db,
            registered (str (Req.email q')) d0 ->
            serve (register env a' q') d0 = (Conflict, d0)).
  { intros d0 Hreg. apply register_registered; assumption. }
  split; [exact Hany|]. split.
  - apply Hany. apply exec_registered. rewrite Hsame.
    apply register_registers. exact Hok.
  - intros d0 t hp n cs Hreg.
    unfold user_create, bind, getDb. simpl.
    unfold registered in Hreg. rewrite Hreg. reflexivity.
Qed.

(** C6. Login failure uniformity.  A login that fails because no user has
    the email and a login that fails because the password does not verify
    get the same response, status 401 with one message and no cookie, and
    neither writes to the database. *)
Theorem login_failures_indistinguishable (env1 env2 : Env) (a1 a2 : Ambient)
    (q1 q2 : Req.t) (d1 d2 : Db) (u : User.t) :
  truthy (Req.email q1) = true ->
  truthy (Req.password q1) = true ->
  truthy (Req.email q2) = true ->
  truthy (Req.password q2) = true ->
  find (hasEmail (str (Req.email q1))) (users d1) = None ->
  find (hasEmail (str (Req.email q2))) (users d2) = Some u ->
  verifyPassword (User.hashedPassword u) (str (Req.password q2)) = false ->
  fst (serve (login env1 a1 q1) d1) = fst (serve (login env2 a2 q2) d2) /\
  serve (login env1 a1 q1) d1 = (InvalidCredentials, d1) /\
  serve (login env2 a2 q2) d2 = (InvalidCredentials, d2).
Proof.
  intros He1 Hp1 He2 Hp2 Hnone Hsome Hbad.
  assert (H1 : serve (login env1 a1 q1) d1 = (InvalidCredentials, d1)).
  { rewrite serve_login, He1, Hp1. simpl. rewrite Hnone. reflexivity. }
  assert (H2 : serve (login env2 a2 q2) d2 = (InvalidCredentials, d2)).
  { rewrite serve_login, He2, Hp2. simpl. rewrite Hsome, Hbad. reflexivity. }
  rewrite H1, H2. auto.
Qed.

(** X3. A login right after a registration, with the same email and
    password, when the password verifier accepts the hash of the password
    it is given: if the store takes the expiry date of the login (a valid
    date that it does not refuse) the login succeeds and returns the user
    that was created; if not, the login answers 500. *)
Theorem login_after_register (env : Env) (a a' : Ambient) (q : Req.t)
    (d : Db) :
  let reg := serve (register env a q) d in
  let log := serve (login env a' q) (snd reg) in
  verifyPassword (hashPassword (str (Req.password q))) (str (Req.password q))
    = true ->
  status (fst reg) = 201 ->
  (storedDate (newDate (fromNow (now a') (daysToMs (expDays env "7"))))
     <> None ->
   status (fst log) = 200 /\
   exists u u',
     body (fst reg) = Session (signAccessToken (pu_id u) "user") u /\
     body (fst log) = Session (signAccessToken (pu_id u') defaultRole) u' /\
     pu_id u' = pu_id u /\ pu_email u' = str (Req.email q)) /\
  (storedDate (newDate (fromNow (now a') (daysToMs (expDays env "7"))))
     = None ->
   status (fst log) = 500).
Proof.
  intros reg log Hverify Hok. subst log reg.
  rewrite serve_register in *.
  destruct (negb (truthy (Req.email q)) || negb (truthy (Req.password q))
            || negb (truthy (Req.name q))) eqn:Hin; [discriminate Hok|].
  apply orb_false_iff in Hin. destruct Hin as [Hin _].
  destruct (find (hasEmail (str (Req.email q))) (users d)) eqn:Hfind;
    [discriminate Hok|].
  destruct (storedDate (newDate (fromNow (now a) _))) as [exp|];
    [|discriminate Hok].
  cbv zeta. cbn [fst snd].
  set (u := newUserRow d (now a) (str (Req.email q))
              (hashPassword (str (Req.password q))) (str (Req.name q))).
  assert (Hf : find (hasEmail (str (Req.email q))) (users d ++ [u]) = Some u).
  { rewrite find_skip by (apply find_none_existsb; exact Hfind).
    simpl. unfold hasEmail. simpl. rewrite String.eqb_refl. reflexivity. }
  assert (Hv : verifyPassword (User.hashedPassword u)
                 (str (Req.password q)) = true) by exact Hverify.
  rewrite serve_login, Hin. cbn [users]. rewrite Hf, Hv.
  destruct (storedDate (newDate (fromNow (now a') _))) as [exp'|].
  - cbn [negb fst snd status body]. split; [|discriminate].
    intros _. split; [reflexivity|].
    exists (publicUser u), (withLastLogin (now a') (publicUser u)).
    split; [reflexivity|]. split; [reflexivity|]. split; reflexivity.
  - cbn [negb fst snd status body]. split; [congruence|reflexivity].
Qed.

End Accounts.

(** C5 as stated fails: with "a@x.com" registered, a registration with
    "A@x.com" (the same email when case is ignored) is not a [Conflict]:
    it answers 201 and a second user row is created. *)
Lemma register_ignores_case_counterexample :
  registeredIgnoringCase "A@x.com" dbAlice = true /\
  status (fst (serve (@register demo noEnv (mkAmbient 2000 "s2") aliceCapital)
                 dbAlice)) = 201 /\
  map User.email
    (users (snd (serve (@register demo noEnv (mkAmbient 2000 "s2")
                          aliceCapital) dbAlice))) =
  ["a@x.com"; "A@x.com"].
Proof. repeat split. Qed.

Lemma register_same_email_conflict_witness :
  status (fst (serve (@register demo noEnv (mkAmbient 1000 "s1") alice)
                 emptyDb)) = 201 /\
  serve (@register demo noEnv (mkAmbient 3000 "s3") alice)
    (@exec demo noEnv [mkCall Logout (mkAmbient 2000 "s2") (presents "s1")]
       dbAlice) =
  (Conflict,
   @exec demo noEnv [mkCall Logout (mkAmbient 2000 "s2") (presents "s1")]
     dbAlice).
Proof.
  split; [reflexivity|].
  exact (proj1 (proj2 (@register_same_email_conflict demo noEnv
                         (mkAmbient 1000 "s1") (mkAmbient 3000 "s3")
                         alice alice emptyDb
                         [mkCall Logout (mkAmbient 2000 "s2") (presents "s1")]
                         eq_refl eq_refl eq_refl eq_refl eq_refl))).
Defined.

Lemma login_failures_indistinguishable_witness :
  fst (serve (@login demo noEnv (mkAmbient 2000 "s2") bob) dbAlice) =
  fst (serve (@login demo noEnv (mkAmbient 3000 "s3") aliceWrong) dbAlice).
Proof.
  exact (proj1 (@login_failures_indistinguishable demo noEnv noEnv
                  (mkAmbient 2000 "s2") (mkAmbient 3000 "s3") bob aliceWrong
                  dbAlice dbAlice
                  (User.mk 1 "a@x.com" "argon2:P@ssw0rd!" (Some "A") None
                     false 1000 1000 None "user")
                  eq_refl eq_refl eq_refl eq_refl eq_refl eq_refl eq_refl)).
Defined.

Lemma login_after_register_witness :
  status (fst (serve (@login demo noEnv (mkAmbient 2000 "s2") alice)
                 dbAlice)) = 200 /\
  status
    (fst (serve (@login demo (mkEnv (Some "2932896") None None)
                   (mkAmbient 90000000 "s2") alice)
            (snd (serve (@register demo (mkEnv (Some "2932896") None None)
                           (mkAmbient 1000 "s1") alice) emptyDb)))) = 500.
Proof.
  split.
  - apply (@login_after_register demo noEnv (mkAmbient 1000 "s1")
             (mkAmbient 2000 "s2") alice emptyDb).
    + reflexivity.
    + reflexivity.
    + simpl. discriminate.
  - apply (@login_after_register demo (mkEnv (Some "2932896") None None)
             (mkAmbient 1000 "s1") (mkAmbient 90000000 "s2") alice emptyDb).
    + reflexivity.
    + reflexivity.
    + reflexivity.
Defined.

Section InputCheck.

Context {P : Platform}.

(** C7, as the code has it.  The only test a registration makes on its
    input is that email, password and name are present and non-empty: when
    one of them is missing or empty, register fails with [InvalidInput],
    creates no user, no token row and sets no cookie; when all three are
    present, whatever the password, the answer is not [InvalidInput]. *)
Theorem register_password_policy (env : Env) (a : Ambient) (q : Req.t)
    (d : Db) :
  (truthy (Req.email q) && truthy (Req.password q) && truthy (Req.name q)
   = false ->
   serve (register env a q) d = (InvalidInput, d)) /\
  (truthy (Req.email q) && truthy (Req.password q) && truthy (Req.name q)
   = true ->
   status (fst (serve (register env a q) d)) <> 400).
Proof.
  rewrite serve_register.
  destruct (truthy (Req.email q)), (truthy (Req.password q)),
    (truthy (Req.name q)); simpl; split; intros H;
    try discriminate H; try reflexivity.
  destruct (find _ _); simpl; [discriminate|].
  destruct (storedDate _); simpl; discriminate.
Qed.

End InputCheck.

(** C7 as stated fails: a registration whose password is the single
    character "1" is not refused; it answers 201, the user is created with
    the digest of that password, and both tokens are issued. *)
Lemma register_weak_password_counterexample :
  String.length (str (Req.password aliceWeak)) = 1%nat /\
  status (fst (serve (@register demo noEnv (mkAmbient 1000 "s1") aliceWeak)
                 emptyDb)) = 201 /\
  map User.hashedPassword
    (users (snd (serve (@register demo noEnv (mkAmbient 1000 "s1") aliceWeak)
                   emptyDb))) = [@hashPassword demo "1"] /\
  map (fun c => match c with
                | SetCookie n _ _ _ => n
                | ClearCookie n _ => n
                end)
    (cookies (fst (serve (@register demo noEnv (mkAmbient 1000 "s1")
                            aliceWeak) emptyDb))) =
  ["accessToken"; "refreshToken"].
Proof. repeat split. Qed.

Lemma register_password_policy_witness :
  serve (@register demo noEnv (mkAmbient 1000 "s1")
           (credentials (Some "a@x.com") (Some "") (Some "A"))) emptyDb =
  (InvalidInput, emptyDb) /\
  status (fst (serve (@register demo noEnv (mkAmbient 1000 "s1") aliceWeak)
                 emptyDb)) <> 400.
Proof.
  split.
  - exact (proj1 (@register_password_policy demo noEnv (mkAmbient 1000 "s1")
                    (credentials (Some "a@x.com") (Some "") (Some "A"))
                    emptyDb) eq_refl).
  - exact (proj2 (@register_password_policy demo noEnv (mkAmbient 1000 "s1")
                    aliceWeak emptyDb) eq_refl).
Defined.

(* ===================================================================== *)
(** * Lifetime of a refresh token *)
(* ===================================================================== *)

Section Lifetime.

Context {P : Platform}.

(** C8, as the code has it.  With [REFRESH_TOKEN_EXP_DAYS] not set, the
    row that register creates expires 30 days after the request, while the
    row that login creates and the row that refresh rotates expire 7 days
    after it; login still sets the cookie of the secret for 30 days. *)
Theorem refresh_ttl_defaults (nodeEnv cookieDomain : option string)
    (a : Ambient) (q : Req.t) (d : Db) :
  let env := mkEnv None nodeEnv cookieDomain in
  (status (fst (serve (register env a q) d)) = 201 ->
   exists row,
     refreshTokens (snd (serve (register env a q) d)) =
       (refreshTokens d ++ [row])%list /\
     RefreshToken.expiresAt row = now a + 30 * msPerDay) /\
  (status (fst (serve (login env a q) d)) = 200 ->
   (exists row,
      refreshTokens (snd (serve (login env a q) d)) =
        (refreshTokens d ++ [row])%list /\
      RefreshToken.expiresAt row = now a + 7 * msPerDay) /\
   In (SetCookie "refreshToken" (randomHex a) (Some (30 * msPerDay))
         (cookieOptions env))
      (cookies (fst (serve (login env a q) d)))) /\
  (status (fst (serve (refresh env a q) d)) = 200 ->
   exists key ip ua,
     refreshTokens (snd (serve (refresh env a q) d)) =
       updateWhere key
         (RefreshToken.rotate (sha256 (randomHex a)) (now a + 7 * msPerDay)
            ip ua)
         (refreshTokens d)).
Proof.
  intros env. split; [|split].
  - rewrite serve_register.
    destruct (_ || _); [discriminate|].
    destruct (find _ _); [discriminate|].
    destruct (storedDate _) as [exp|] eqn:Hd; [|discriminate]. simpl.
    intros _. eexists. split; [reflexivity|]. simpl.
    exact (default_expiry nodeEnv cookieDomain "30" (now a) eq_refl Hd).
  - rewrite serve_login.
    destruct (_ || _); [discriminate|].
    destruct (find _ _) as [user|]; [|discriminate].
    destruct (negb _); [discriminate|].
    destruct (storedDate _) as [exp|] eqn:Hd; [|discriminate]. simpl.
    intros _. split.
    + eexists. split; [reflexivity|]. simpl.
      exact (default_expiry nodeEnv cookieDomain "7" (now a) eq_refl Hd).
    + right. left. reflexivity.
  - intros Hok. destruct (refresh_ok_inv _ _ _ _ Hok)
      as (row & user & exp & _ & _ & _ & _ & Hd & Hrun).
    rewrite Hrun. simpl.
    rewrite (default_expiry nodeEnv cookieDomain "7" (now a) eq_refl Hd).
    do 3 eexists. reflexivity.
Qed.

End Lifetime.

(** The failing input of C8: Alice logs in at time 2000 with no TTL
    configured.  Her new row expires 7 days later, not 30, although the
    cookie that carries the secret is set for 30 days. *)
Lemma login_default_ttl_example :
  map RefreshToken.expiresAt
    (refreshTokens
       (snd (serve (@login demo noEnv (mkAmbient 2000 "s2") alice) dbAlice))) =
  [1000 + 30 * msPerDay; 2000 + 7 * msPerDay] /\
  In (SetCookie "refreshToken" "s2" (Some (30 * msPerDay))
        (@cookieOptions noEnv))
    (cookies (fst (serve (@login demo noEnv (mkAmbient 2000 "s2") alice)
                     dbAlice))).
Proof. split; [reflexivity|]. right. left. reflexivity. Qed.

(* ===================================================================== *)
(** * Chains of refreshes *)
(* ===================================================================== *)

Section Chains.

Context {P : Platform}.

(** After the rotation, the first live row with the new digest is the row
    that was rotated. *)
Lemma find_rotated (h h' : string) (exp : Z) (ip ua : option string)
    (rows : list RefreshToken.t) (row : RefreshToken.t) :
  find (liveWith h) rows = Some row ->
  existsb (liveWith h') rows = false ->
  find (liveWith h')
    (updateWhere (rotationKey (RefreshToken.id row) h)
       (RefreshToken.rotate h' exp ip ua) rows) =
  Some (RefreshToken.rotate h' exp ip ua row).
Proof.
  intros Hf Hnew.
  destruct (find_first _ _ Hf) as (before & after & -> & Hlive & Hb).
  rewrite existsb_app in Hnew. apply orb_false_iff in Hnew.
  destruct Hnew as [Hnb _].
  unfold updateWhere. rewrite map_app. simpl.
  assert (Hkeep : map (fun r => if rotationKey (RefreshToken.id row) h r
                                then RefreshToken.rotate h' exp ip ua r
                                else r) before = before).
  { rewrite <- map_id. apply map_ext_in. intros x Hx.
    rewrite forallb_forall in Hb. specialize (Hb x Hx).
    unfold rotationKey. destruct (liveWith h x); [discriminate|].
    rewrite andb_false_r. reflexivity. }
  rewrite Hkeep, find_skip by exact Hnb. simpl.
  assert (Hkey : rotationKey (RefreshToken.id row) h row = true).
  { unfold rotationKey. rewrite Nat.eqb_refl, Hlive. reflexivity. }
  assert (Hrot : liveWith h' (RefreshToken.rotate h' exp ip ua row) = true).
  { unfold liveWith in *. simpl. rewrite String.eqb_refl.
    apply andb_true_iff in Hlive. destruct Hlive as [_ ->]. reflexivity. }
  rewrite Hkey, Hrot. reflexivity.
Qed.

(** One link of a chain. *)
Lemma refresh_chain_step (env : Env) (days : Z) (a : Ambient) (q : Req.t)
    (d : Db) (s : string) (c e : Z) :
  expDays env "7" = Some days ->
  s <> "" ->
  chainRow d s c e ->
  now a < e ->
  Z.abs (now a + days * msPerDay) <= maxTime ->
  storesDate (now a + days * msPerDay) = true ->
  noLive (digestOf a) d ->
  let r := serve (refresh env a (presenting s q)) d in
  status (fst r) = 200 /\
  In (SetCookie "refreshToken" (randomHex a) (Some (days * msPerDay))
        (cookieOptions env)) (cookies (fst r)) /\
  chainRow (snd r) (randomHex a) c (now a + days * msPerDay).
Proof.
  intros Hdays Hs (row & user & Hrow & Huser & Hc & He) Hlt Hvalid Hst Hnew r.
  subst r. rewrite serve_refresh. simpl.
  apply String.eqb_neq in Hs. rewrite Hs. simpl.
  rewrite Hrow, Huser.
  assert (Hexp : (RefreshToken.expiresAt row <=? now a) = false)
    by (apply Z.leb_gt; lia).
  rewrite Hexp, Hdays, daysToMs_some. unfold fromNow, option_map.
  rewrite newDate_valid by exact Hvalid.
  rewrite storedDate_valid by exact Hst. simpl.
  split; [reflexivity|]. split; [right; left; reflexivity|].
  exists (RefreshToken.rotate (sha256 (randomHex a)) (now a + days * msPerDay)
            (orUndefined (Req.ip q)) (orUndefined (Req.userAgent q)) row),
    user.
  split; [apply find_rotated; assumption|].
  simpl. auto.
Qed.

(** C9. Sliding refresh expiry.  With [days] the configured number of
    days, a successful refresh sets the expiry of the row it matched to
    the time of the request plus [days] whole days, whatever the expiry and
    the creation time of the row were.  Hence a chain of refreshes, each
    made before the expiry set by the one before it and each setting a
    date that is valid and that the store takes, succeeds at every link,
    however long it is and whatever body, address and user agent its
    requests carry: its row keeps its creation time and ends with the
    expiry set by the last link. *)
Theorem refresh_sliding_expiry (env : Env) (days : Z) :
  expDays env "7" = Some days ->
  (forall (a : Ambient) (q : Req.t) (d : Db),
     status (fst (serve (refresh env a q) d)) = 200 ->
     exists row,
       find (liveWith (sha256 (str (Req.refreshToken q)))) (refreshTokens d)
         = Some row /\
       In (RefreshToken.rotate (sha256 (randomHex a))
             (now a + days * msPerDay)
             (orUndefined (Req.ip q)) (orUndefined (Req.userAgent q)) row)
          (refreshTokens (snd (serve (refresh env a q) d)))) /\
  (forall (steps : list (Ambient * Req.t)) (d : Db) (s : string) (c e : Z),
     s <> "" ->
     chainRow d s c e ->
     NoDup (map digestOf (map fst steps)) ->
     newSecrets d (map fst steps) ->
     inWindow (days * msPerDay) e (map fst steps) ->
     let run := refreshChain env s steps d in
     length (fst run) = length steps /\
     Forall (fun r => status r = 200) (fst run) /\
     chainRow (snd run) (lastSecret s (map fst steps)) c
       (lastExpiry (days * msPerDay) e (map fst steps))).
Proof.
  intros Hdays. split.
  - intros a q d Hok.
    destruct (refresh_ok_inv env a q d Hok)
      as (row & user & exp & _ & Hrow & _ & _ & Hd & Hrun).
    exists row. split; [exact Hrow|]. rewrite Hrun. simpl.
    rewrite Hdays, daysToMs_some in Hd.
    apply storedDate_some in Hd. destruct Hd as [Hd _].
    apply newDate_some in Hd. simpl in Hd. injection Hd as <-.
    unfold updateWhere. apply in_map_iff. exists row.
    apply find_some in Hrow. destruct Hrow as [Hin Hl].
    unfold rotationKey. rewrite Nat.eqb_refl, Hl. auto.
  - induction steps as [|[a q] rest IH];
      intros d s c e Hs Hrow Hnd Hnew Hwin.
    + simpl. auto.
    + simpl in Hwin, Hnd, Hnew.
      destruct Hwin as (Hlt & Hvalid & Hst & Hrest).
      inversion Hnd as [|x xs Hnotin Hnd']; subst.
      inversion Hnew as [|x xs [Ha Hno] Hnew']; subst.
      destruct (refresh_chain_step env a q Hdays Hs Hrow Hlt Hvalid Hst Hno)
        as (Hok & _ & Hrow').
      assert (Hnext : newSecrets
                (snd (serve (refresh env a (presenting s q)) d))
                (map fst rest)).
      { unfold newSecrets in *. rewrite Forall_forall in *.
        intros b Hb. destruct (Hnew' b Hb) as [Hb1 Hb2].
        split; [exact Hb1|].
        apply (step_noLive env (d := d)
                 (c := mkCall Refresh a (presenting s q)));
          [|exact Hb2].
        unfold drawsOther. simpl. intros Heq. apply Hnotin.
        apply in_map_iff. exists b. split; [|exact Hb].
        unfold digestOf in *. symmetry. exact Heq. }
      destruct (IH _ _ c _ Ha Hrow' Hnd' Hnext Hrest) as (Hlen & Hall & Hend).
      simpl. split; [f_equal; exact Hlen|].
      split; [constructor; assumption|exact Hend].
Qed.

End Chains.

Lemma refresh_sliding_expiry_witness :
  @expDays noEnv "7" = Some 7 /\
  Forall (fun r => status r = 200)
    (fst (@refreshChain demo noEnv "s1" threeLinks dbAlice)) /\
  @chainRow demo (snd (@refreshChain demo noEnv "s1" threeLinks dbAlice))
    "s4" 1000 (3801599998 + 7 * msPerDay).
Proof.
  split; [reflexivity|].
  assert (H1 : "s1" <> "") by discriminate.
  assert (H2 : @chainRow demo dbAlice "s1" 1000 2592001000).
  { exists (RefreshToken.mk 1 "sha256:s1" 1 1000 2592001000 false None None),
      (User.mk 1 "a@x.com" "argon2:P@ssw0rd!" (Some "A") None false
         1000 1000 None "user").
    repeat split. }
  assert (H3 : NoDup (map (@digestOf demo) (map fst threeLinks))).
  { repeat constructor; simpl; intuition discriminate. }
  assert (H4 : @newSecrets demo dbAlice (map fst threeLinks)).
  { repeat constructor; discriminate. }
  assert (H5 : @inWindow demo (7 * msPerDay) 2592001000
                 (map fst threeLinks)).
  { simpl. repeat split; discriminate. }
  destruct (proj2 (@refresh_sliding_expiry demo noEnv 7 eq_refl)
              threeLinks dbAlice "s1" 1000 2592001000 H1 H2 H3 H4 H5)
    as (_ & Hall & Hend).
  split; [exact Hall|exact Hend].
Defined.

(* ===================================================================== *)
(** * Role carried by the access token *)
(* ===================================================================== *)

Section Roles.

Context {P : Platform}.

(** C10. Registration role fixing.  The access token that register issues
    is signed for the new user's id with the role ['user'], whatever role
    the schema gives the stored row; login and refresh sign for the role
    stored on the user's row. *)
Theorem access_token_role (env : Env) (a : Ambient) (q : Req.t) (d : Db) :
  (status (fst (serve (register env a q) d)) = 201 ->
   exists u,
     users (snd (serve (register env a q) d)) = (users d ++ [u])%list /\
     User.role u = defaultRole /\
     body (fst (serve (register env a q) d)) =
       Session (signAccessToken (User.id u) "user") (publicUser u)) /\
  (status (fst (serve (login env a q) d)) = 200 ->
   exists u,
     find (hasEmail (str (Req.email q))) (users d) = Some u /\
     body (fst (serve (login env a q) d)) =
       Session (signAccessToken (User.id u) (User.role u))
         (withLastLogin (now a) (publicUser u))) /\
  (status (fst (serve (refresh env a q) d)) = 200 ->
   exists row u,
     find (liveWith (sha256 (str (Req.refreshToken q)))) (refreshTokens d)
       = Some row /\
     find (hasUserId (RefreshToken.userId row)) (users d) = Some u /\
     body (fst (serve (refresh env a q) d)) =
       Token (signAccessToken (User.id u) (User.role u))).
Proof.
  split; [|split].
  - rewrite serve_register.
    destruct (_ || _); [discriminate|].
    destruct (find _ _); [discriminate|]. simpl.
    destruct (storedDate _) as [exp|]; [|discriminate]. simpl.
    intros _. eexists. split; [reflexivity|]. split; reflexivity.
  - rewrite serve_login.
    destruct (_ || _); [discriminate|].
    destruct (find _ _) as [user|]; [|discriminate].
    destruct (negb _); [discriminate|].
    destruct (storedDate _) as [exp|]; [|discriminate]. simpl.
    intros _. exists user. split; reflexivity.
  - intros Hok. destruct (refresh_ok_inv _ _ _ _ Hok)
      as (row & user & exp & _ & Hrow & Huser & _ & _ & Hrun).
    rewrite Hrun. simpl. exists row, user. auto.
Qed.

End Roles.

(** On a schema whose default role is ['admin'], the token of the
    registration says ['user'] and the token of the next login says
    ['admin']. *)
Lemma access_token_role_witness :
  body (fst (serve (@register demoAdmin noEnv (mkAmbient 1000 "s1") alice)
               emptyDb)) =
  Session "jwt:1:user"
    (mkPublicUser 1 "a@x.com" (Some "A") None false 1000 1000 None) /\
  map User.role
    (users (snd (serve (@register demoAdmin noEnv (mkAmbient 1000 "s1") alice)
                   emptyDb))) = ["admin"] /\
  body (fst (serve (@login demoAdmin noEnv (mkAmbient 2000 "s2") alice)
               (snd (serve (@register demoAdmin noEnv (mkAmbient 1000 "s1")
                              alice) emptyDb)))) =
  Session "jwt:1:admin"
    (mkPublicUser 1 "a@x.com" (Some "A") None false 1000 1000 (Some 2000)).
Proof.
  destruct (@access_token_role demoAdmin noEnv (mkAmbient 1000 "s1") alice
              emptyDb) as (Hreg & _ & _).
  destruct (Hreg eq_refl) as (u & Hu & Hrole & Hbody).
  injection Hu as <-.
  split; [exact Hbody|]. split; [reflexivity|].
  destruct (@access_token_role demoAdmin noEnv (mkAmbient 2000 "s2") alice
              (snd (serve (@register demoAdmin noEnv (mkAmbient 1000 "s1")
                             alice) emptyDb))) as (_ & Hlogin & _).
  destruct (Hlogin eq_refl) as (v & Hv & Hb).
  injection Hv as <-. exact Hb.
Defined.

(* ===================================================================== *)
(** * A walk through the routes *)
(* ===================================================================== *)

(** The walk through the routes answers 201 to the registration, 401
    to the login with a wrong password, 200 to the login, 200 to the first
    refresh, 401 to the second refresh with the same secret, 200 to the
    logout and 401 to the refresh after it. *)
Lemma walk_statuses :
  @statuses demo noEnv walk emptyDb = [201; 401; 200; 200; 401; 200; 401].
Proof. reflexivity. Qed.

(* ===================================================================== *)
(** * Cookies and replies of the routes *)
(* ===================================================================== *)

Section Replies.

Context {P : Platform}.

(** Case analysis on every test a goal branches on. *)
Ltac branch :=
  repeat (match goal with
          | |- context [match ?x with _ => _ end] => destruct x eqn:?
          end; simpl).

Ltac open_route :=
  unfold answer, step, handle;
  match goal with
  | |- context [route ?c] => destruct (route c)
  end;
  [rewrite ?serve_register | rewrite ?serve_login | rewrite ?serve_refresh
  | rewrite ?serve_logout].

(** X5. Every cookie that a route sets or clears, on any request and in any
    outcome, is [httpOnly] and [sameSite: 'lax'], is [secure] exactly when
    [NODE_ENV] is ['production'], and has the domain [COOKIE_DOMAIN], or
    ['localhost'] when that is unset or empty. *)
Theorem cookie_attributes (env : Env) (c : Call) (d : Db) :
  Forall
    (fun k =>
       httpOnly (optionsOf k) = true /\
       sameSite (optionsOf k) = "lax" /\
       (secure (optionsOf k) = true <-> NODE_ENV env = Some "production") /\
       domain (optionsOf k) = orDefault (COOKIE_DOMAIN env) "localhost")
    (cookies (answer env c d)).
Proof.
  assert (Hopt : httpOnly (cookieOptions env) = true /\
                 sameSite (cookieOptions env) = "lax" /\
                 (secure (cookieOptions env) = true <->
                  NODE_ENV env = Some "production") /\
                 domain (cookieOptions env)
                   = orDefault (COOKIE_DOMAIN env) "localhost").
  { unfold cookieOptions. simpl. repeat split.
    - destruct (NODE_ENV env) as [v|]; [|discriminate].
      intros Hv. apply String.eqb_eq in Hv. congruence.
    - intros ->. apply String.eqb_refl. }
  open_route; branch; repeat constructor; simpl; apply Hopt.
Qed.

(** X6. The secret drawn for a request reaches the reply only as the value of
    the [refreshToken] cookie: status and body do not depend on it, and
    nor do the cookies once that value is blanked. *)
Theorem secret_only_in_cookie (env : Env) (r : Route) (t : Z)
    (s1 s2 : string) (q : Req.t) (d : Db) :
  let a1 := answer env (mkCall r (mkAmbient t s1) q) d in
  let a2 := answer env (mkCall r (mkAmbient t s2) q) d in
  status a1 = status a2 /\
  body a1 = body a2 /\
  map redact (cookies a1) = map redact (cookies a2).
Proof.
  unfold answer, handle. simpl.
  destruct r; rewrite ?serve_register, ?serve_login, ?serve_refresh,
    ?serve_logout; simpl; branch; repeat split.
Qed.

(** X7. A request that is refused with 400, 409 or 401, other than for an
    expired refresh token, writes nothing and sets no cookie. *)
Theorem rejections_write_nothing (env : Env) (c : Call) (d : Db) :
  status (answer env c d) = 400 \/
  status (answer env c d) = 409 \/
  (status (answer env c d) = 401 /\
   body (answer env c d) <> Message "Refresh token expired") ->
  step env d c = d /\ cookies (answer env c d) = [].
Proof.
  open_route; branch; intros [H|[H|[H1 H2]]];
    try discriminate; try (split; reflexivity).
  contradiction H2. reflexivity.
Qed.

(** X8. A register, login or refresh that succeeds sets exactly two cookies:
    [accessToken], for 15 minutes, whose value is the access token of the
    body, and [refreshToken], whose value is the secret drawn. *)
Theorem success_sets_both_cookies (env : Env) (c : Call) (d : Db) :
  route c <> Logout ->
  status (answer env c d) = 200 \/ status (answer env c d) = 201 ->
  exists tok age,
    cookies (answer env c d) =
      [SetCookie "accessToken" tok (Some 900000) (cookieOptions env);
       SetCookie "refreshToken" (randomHex (amb c)) age (cookieOptions env)] /\
    (body (answer env c d) = Token tok \/
     exists u, body (answer env c d) = Session tok u).
Proof.
  intros Hr. unfold answer, handle.
  destruct (route c); [| | |contradiction Hr; reflexivity];
    rewrite ?serve_register, ?serve_login, ?serve_refresh;
    branch; intros [H|H]; try discriminate;
    do 2 eexists; (split; [reflexivity|]); eauto.
Qed.


End Replies.

Lemma rejections_write_nothing_witness :
  @step demo noEnv dbAlice (mkCall Login (mkAmbient 2000 "s2") aliceWrong)
    = dbAlice /\
  cookies (@answer demo noEnv (mkCall Login (mkAmbient 2000 "s2") aliceWrong)
             dbAlice) = [].
Proof.
  apply (@rejections_write_nothing demo noEnv
           (mkCall Login (mkAmbient 2000 "s2") aliceWrong) dbAlice).
  right. right. split; [reflexivity|discriminate].
Defined.

Lemma success_sets_both_cookies_witness :
  exists tok age,
    cookies (@answer demo noEnv (mkCall Login (mkAmbient 2000 "s2") alice)
               dbAlice) =
      [SetCookie "accessToken" tok (Some 900000) (cookieOptions noEnv);
       SetCookie "refreshToken" "s2" age (cookieOptions noEnv)] /\
    (body (@answer demo noEnv (mkCall Login (mkAmbient 2000 "s2") alice)
             dbAlice) = Token tok \/
     exists u,
       body (@answer demo noEnv (mkCall Login (mkAmbient 2000 "s2") alice)
               dbAlice) = Session tok u).
Proof.
  apply (@success_sets_both_cookies demo noEnv
           (mkCall Login (mkAmbient 2000 "s2") alice) dbAlice).
  - discriminate.
  - left. reflexivity.
Defined.


(* ===================================================================== *)
(** * A registration that fails half way *)
(* ===================================================================== *)

Section Atomicity.

Context {P : Platform}.


End Atomicity.


(* ===================================================================== *)
(** * What no sequence of requests undoes *)
(* ===================================================================== *)

Section Permanence.

Context {P : Platform}.

Lemma set_revoked_revoked (r : RefreshToken.t) :
  RefreshToken.revoked r = true -> RefreshToken.set_revoked true r = r.
Proof. destruct r. simpl. intros ->. reflexivity. Qed.

Lemma revoked_not_in_key (i : nat) (h : string) (r : RefreshToken.t) :
  RefreshToken.revoked r = true -> rotationKey i h r = false.
Proof.
  intros Hr. unfold rotationKey, liveWith. rewrite Hr. simpl.
  rewrite !andb_false_r. reflexivity.
Qed.

Lemma nth_error_updateWhere (A : Type) (c : A -> bool) (data : A -> A)
    (rows : list A) (i : nat) (x : A) :
  nth_error rows i = Some x ->
  nth_error (updateWhere c data rows) i = Some (if c x then data x else x).
Proof.
  intros Hn. unfold updateWhere. rewrite nth_error_map, Hn. reflexivity.
Qed.

Lemma nth_error_snoc (A : Type) (l : list A) (y : A) (i : nat) (x : A) :
  nth_error l i = Some x -> nth_error (l ++ [y]) i = Some x.
Proof.
  intros Hn. rewrite nth_error_app1; [exact Hn|].
  apply nth_error_Some. congruence.
Qed.

(** A revoked row is left as it is by every write. *)
Lemma tokensWrite_frozen (h' : string) (rows rows' : list RefreshToken.t)
    (i : nat) (r : RefreshToken.t) :
  tokensWrite h' rows rows' ->
  nth_error rows i = Some r ->
  RefreshToken.revoked r = true ->
  nth_error rows' i = Some r.
Proof.
  intros Hw Hn Hr. destruct Hw as [|x Hx|c|j h exp ip ua].
  - exact Hn.
  - apply nth_error_snoc. exact Hn.
  - rewrite (nth_error_updateWhere _ _ _ _ Hn).
    destruct (c r); [rewrite set_revoked_revoked by exact Hr|]; reflexivity.
  - rewrite (nth_error_updateWhere _ _ _ _ Hn).
    rewrite revoked_not_in_key by exact Hr. reflexivity.
Qed.

(** X11. Revocation is final: a revoked row stays in its place, revoked and
    unchanged in every column, whatever requests are served afterwards. *)
Theorem revoked_rows_are_frozen (env : Env) (cs : list Call) (d : Db)
    (i : nat) (r : RefreshToken.t) :
  nth_error (refreshTokens d) i = Some r ->
  RefreshToken.revoked r = true ->
  nth_error (refreshTokens (exec env cs d)) i = Some r.
Proof.
  unfold exec. revert d.
  induction cs as [|c cs IH]; intros d Hn Hr; simpl; [exact Hn|].
  apply IH; [|exact Hr].
  eapply tokensWrite_frozen; [apply step_tokens|exact Hn|exact Hr].
Qed.

Lemma tokensWrite_keys (h' : string) (rows rows' : list RefreshToken.t) :
  tokensWrite h' rows rows' ->
  exists more, map tokenKey rows' = (map tokenKey rows ++ more)%list.
Proof.
  intros Hw. destruct Hw as [|x Hx|c|j h exp ip ua].
  - exists []. rewrite app_nil_r. reflexivity.
  - exists [tokenKey x]. rewrite map_app. reflexivity.
  - exists []. rewrite app_nil_r.
    apply map_updateWhere_stable. reflexivity.
  - exists []. rewrite app_nil_r.
    apply map_updateWhere_stable. reflexivity.
Qed.

Lemma usersWrite_keys (rows rows' : list User.t) :
  usersWrite rows rows' ->
  exists more, map userKey rows' = (map userKey rows ++ more)%list.
Proof.
  intros Hw. destruct Hw as [|u|c t].
  - exists []. rewrite app_nil_r. reflexivity.
  - exists [userKey u]. rewrite map_app. reflexivity.
  - exists []. rewrite app_nil_r.
    apply map_updateWhere_stable. reflexivity.
Qed.

(** X12. No sequence of requests deletes or reorders a row, gives a token row
    another id, owner or creation time, or changes the id, email, password
    digest or role of a user: the rows present before are a prefix of the
    rows after, column for column. *)
Theorem rows_are_never_removed (env : Env) (cs : list Call) (d : Db) :
  (exists more,
     map tokenKey (refreshTokens (exec env cs d)) =
     (map tokenKey (refreshTokens d) ++ more)%list) /\
  (exists more,
     map userKey (users (exec env cs d)) =
     (map userKey (users d) ++ more)%list).
Proof.
  unfold exec. revert d.
  induction cs as [|c cs IH]; intros d; simpl.
  - split; exists []; rewrite app_nil_r; reflexivity.
  - destruct (IH (step env d c)) as [[m1 H1] [m2 H2]].
    destruct (tokensWrite_keys (step_tokens env d c)) as [n1 K1].
    destruct (usersWrite_keys (step_users env d c)) as [n2 K2].
    split.
    + exists (n1 ++ m1)%list. rewrite H1, K1, app_assoc. reflexivity.
    + exists (n2 ++ m2)%list. rewrite H2, K2, app_assoc. reflexivity.
Qed.

End Permanence.

Lemma revoked_rows_are_frozen_witness :
  nth_error
    (refreshTokens
       (@exec demo noEnv
          [mkCall Login (mkAmbient 3000 "s3") alice;
           mkCall Refresh (mkAmbient 4000 "s4") (presents "s1");
           mkCall Logout (mkAmbient 5000 "s5") (presents "s3")]
          (@step demo noEnv dbAlice
             (mkCall Logout (mkAmbient 2000 "s2") (presents "s1")))))
    0
  = Some (RefreshToken.mk 1 "sha256:s1" 1 1000 2592001000 true None None).
Proof.
  apply (@revoked_rows_are_frozen demo noEnv
           [mkCall Login (mkAmbient 3000 "s3") alice;
            mkCall Refresh (mkAmbient 4000 "s4") (presents "s1");
            mkCall Logout (mkAmbient 5000 "s5") (presents "s3")]
           (@step demo noEnv dbAlice
              (mkCall Logout (mkAmbient 2000 "s2") (presents "s1")))
           0%nat).
  - reflexivity.
  - reflexivity.
Defined.

(* ===================================================================== *)
(** * Integrity of the databases the server can reach *)
(* ===================================================================== *)

Section Integrity.

Context {P : Platform}.

Lemma not_in_emails (e : string) (rows : list User.t) :
  existsb (hasEmail e) rows = false -> ~ In e (map User.email rows).
Proof.
  intros He Hin. apply in_map_iff in Hin. destruct Hin as (u & Hu & Hin).
  rewrite existsb_false_forall in He. specialize (He u Hin).
  unfold hasEmail in He. rewrite Hu, String.eqb_refl in He. discriminate.
Qed.

Lemma existsb_snoc_last (A : Type) (f : A -> bool) (l : list A) (x : A) :
  f x = true -> existsb f (l ++ [x]) = true.
Proof.
  intros Hx. rewrite existsb_app. simpl. rewrite Hx.
  apply orb_true_iff. right. reflexivity.
Qed.

Lemma existsb_snoc_old (A : Type) (f : A -> bool) (l : list A) (x : A) :
  existsb f l = true -> existsb f (l ++ [x]) = true.
Proof. intros Hl. rewrite existsb_app, Hl. reflexivity. Qed.

Lemma integrity_user_create (d : Db) (t : Z) (e hp n : string) :
  integrity d ->
  existsb (hasEmail e) (users d) = false ->
  integrity (mkDb (users d ++ [newUserRow d t e hp n]) (refreshTokens d)).
Proof.
  intros (Hid & Hem & Htid & Hfk) He. unfold integrity. simpl.
  rewrite !map_app. simpl. repeat split.
  - apply NoDup_snoc; [exact Hid|apply freshId_fresh].
  - apply NoDup_snoc; [exact Hem|apply not_in_emails; exact He].
  - exact Htid.
  - intros r Hr. apply existsb_snoc_old. apply Hfk. exact Hr.
Qed.

Lemma integrity_token_create (d : Db) (t : Z) (h : string) (uid : nat)
    (e : Z) (ip ua : option string) :
  integrity d ->
  existsb (hasUserId uid) (users d) = true ->
  integrity
    (mkDb (users d) (refreshTokens d ++ [newTokenRow d t h uid e ip ua])).
Proof.
  intros (Hid & Hem & Htid & Hfk) Hu. unfold integrity. simpl.
  rewrite map_app. simpl. repeat split.
  - exact Hid.
  - exact Hem.
  - apply NoDup_snoc; [exact Htid|apply freshId_fresh].
  - intros r Hr. apply in_app_or in Hr. destruct Hr as [Hr|[<-|[]]].
    + apply Hfk. exact Hr.
    + exact Hu.
Qed.

Lemma integrity_tokens_update (d : Db) (c : RefreshToken.t -> bool)
    (data : RefreshToken.t -> RefreshToken.t) :
  (forall r, RefreshToken.id (data r) = RefreshToken.id r) ->
  (forall r, RefreshToken.userId (data r) = RefreshToken.userId r) ->
  integrity d ->
  integrity (mkDb (users d) (updateWhere c data (refreshTokens d))).
Proof.
  intros Hi Hu (Hid & Hem & Htid & Hfk). unfold integrity. simpl.
  repeat split.
  - exact Hid.
  - exact Hem.
  - rewrite map_updateWhere_stable; [exact Htid|exact Hi].
  - intros r Hr. apply In_updateWhere in Hr. destruct Hr as (x & Hx & ->).
    destruct (c x); [rewrite Hu|]; apply Hfk; exact Hx.
Qed.

Lemma integrity_user_login (d : Db) (i : nat) (t : Z) :
  integrity d ->
  integrity
    (mkDb (updateWhere (hasUserId i) (User.set_lastLoginAt t) (users d))
       (refreshTokens d)).
Proof.
  intros (Hid & Hem & Htid & Hfk). unfold integrity. simpl.
  repeat split.
  - rewrite map_updateWhere_stable; [exact Hid|reflexivity].
  - rewrite map_updateWhere_stable; [exact Hem|reflexivity].
  - exact Htid.
  - intros r Hr. rewrite existsb_updateWhere_stable; [|reflexivity].
    apply Hfk. exact Hr.
Qed.

Lemma step_integrity (env : Env) (d : Db) (c : Call) :
  integrity d -> integrity (step env d c).
Proof.
  intros Hd. unfold step, handle. destruct (route c).
  - rewrite serve_register.
    destruct (_ || _); [exact Hd|].
    destruct (find _ _) eqn:Hf; [exact Hd|].
    apply find_none_existsb in Hf.
    pose proof (@integrity_user_create d (now (amb c))
                  (str (Req.email (req c)))
                  (hashPassword (str (Req.password (req c))))
                  (str (Req.name (req c))) Hd Hf) as Hu.
    cbv zeta. destruct (storedDate _) as [exp|]; [|exact Hu]. simpl.
    apply (@integrity_token_create
             (mkDb (users d ++
                    [newUserRow d (now (amb c)) (str (Req.email (req c)))
                       (hashPassword (str (Req.password (req c))))
                       (str (Req.name (req c)))])
                (refreshTokens d)));
      [exact Hu|]. simpl.
    apply existsb_snoc_last. unfold hasUserId. apply Nat.eqb_refl.
  - rewrite serve_login.
    destruct (_ || _); [exact Hd|].
    destruct (find _ _) as [user|] eqn:Hf; [|exact Hd].
    destruct (negb _); [exact Hd|].
    destruct (storedDate _) as [exp|]; [|exact Hd]. simpl.
    apply (@integrity_user_login
             (mkDb (users d)
                (refreshTokens d ++
                 [newTokenRow d (now (amb c)) (sha256 (randomHex (amb c)))
                    (User.id user) exp (orUndefined (Req.ip (req c)))
                    (orUndefined (Req.userAgent (req c)))]))
             (User.id user) (now (amb c))).
    apply integrity_token_create; [exact Hd|].
    eapply found_user_has_id. exact Hf.
  - rewrite serve_refresh.
    destruct (negb _); [exact Hd|]. simpl.
    destruct (find _ (refreshTokens d)) as [row|]; [|exact Hd].
    destruct (find _ (users d)) as [user|]; [|exact Hd].
    destruct (_ <=? _); simpl.
    + apply integrity_tokens_update; [reflexivity|reflexivity|exact Hd].
    + destruct (storedDate _); simpl; [|exact Hd].
      apply integrity_tokens_update; [reflexivity|reflexivity|exact Hd].
  - rewrite serve_logout. simpl.
    destruct (truthy _); [|exact Hd].
    apply integrity_tokens_update; [reflexivity|reflexivity|exact Hd].
Qed.

(** X13. Every database reached from the empty one, by any requests whatever,
    has pairwise distinct user ids, emails and token ids, and every token
    row belongs to a user row. *)
Theorem reachable_integrity (env : Env) (cs : list Call) :
  integrity (exec env cs emptyDb).
Proof.
  assert (Hgen : forall d, integrity d -> integrity (exec env cs d)).
  { unfold exec. induction cs as [|c cs IH]; intros d Hd; simpl;
      [exact Hd|].
    apply IH. apply step_integrity. exact Hd. }
  apply Hgen. unfold integrity. simpl.
  repeat split; try constructor. intros r [].
Qed.

Lemma same_id_same_row (rows : list RefreshToken.t) (r1 r2 : RefreshToken.t) :
  NoDup (map RefreshToken.id rows) ->
  In r1 rows -> In r2 rows ->
  RefreshToken.id r1 = RefreshToken.id r2 -> r1 = r2.
Proof.
  induction rows as [|x rows IH]; simpl; intros Hnd H1 H2 Hid; [contradiction|].
  inversion Hnd as [|y l Hx Hrest]; subst.
  destruct H1 as [<-|H1], H2 as [<-|H2].
  - reflexivity.
  - exfalso. apply Hx. rewrite Hid. apply in_map. exact H2.
  - exfalso. apply Hx. rewrite <- Hid. apply in_map. exact H1.
  - apply IH; assumption.
Qed.

(** Rows outside a filter are not touched by a write whose rows are all
    outside it, before and after. *)
Lemma filter_updateWhere_other (A : Type) (f c : A -> bool) (data : A -> A)
    (rows : list A) :
  (forall r, In r rows -> c r = true -> f r = false /\ f (data r) = false) ->
  filter f (updateWhere c data rows) = filter f rows.
Proof.
  unfold updateWhere.
  induction rows as [|x rows IH]; simpl; intros H; [reflexivity|].
  rewrite IH by (intros r Hr; apply H; right; exact Hr).
  destruct (c x) eqn:Hc; [|reflexivity].
  destruct (H x (or_introl eq_refl) Hc) as [-> ->]. reflexivity.
Qed.

Lemma live_other_digest (h h' : string) (r : RefreshToken.t) :
  h' <> h -> liveWith h' r = true -> liveWith h r = false.
Proof.
  unfold liveWith. intros Hne Hl.
  apply andb_true_iff in Hl. destruct Hl as [Hl _].
  apply String.eqb_eq in Hl. rewrite Hl.
  apply String.eqb_neq in Hne. rewrite Hne. reflexivity.
Qed.

(** X14. Sessions do not interfere: a request leaves the live rows of a digest
    exactly as they were, unless it presents or draws a secret of that
    digest.  Logging in, registering, refreshing or logging out one session
    revokes and rotates no other. *)
Theorem sessions_do_not_interfere (env : Env) (c : Call) (d : Db)
    (h : string) :
  NoDup (map RefreshToken.id (refreshTokens d)) ->
  callDigest c <> h ->
  presentedDigest c <> h ->
  filter (liveWith h) (refreshTokens (step env d c)) =
  filter (liveWith h) (refreshTokens d).
Proof.
  unfold callDigest, presentedDigest. intros Hnd Hdraw Hpres.
  assert (Hnew : forall t uid e ip ua,
            liveWith h (newTokenRow d t (sha256 (randomHex (amb c)))
                          uid e ip ua) = false).
  { intros. unfold liveWith. simpl.
    apply String.eqb_neq in Hdraw. rewrite Hdraw. reflexivity. }
  unfold step, handle. destruct (route c).
  - rewrite serve_register.
    destruct (_ || _); [reflexivity|].
    destruct (find _ _); [reflexivity|]. cbv zeta.
    destruct (storedDate _) as [exp|]; [|reflexivity]. simpl.
    rewrite filter_app. simpl.
    unfold newTokenRow at 1. simpl. fold (newTokenRow d).
    unfold liveWith at 2. simpl.
    apply String.eqb_neq in Hdraw. rewrite Hdraw. simpl.
    apply app_nil_r.
  - rewrite serve_login.
    destruct (_ || _); [reflexivity|].
    destruct (find _ _) as [user|]; [|reflexivity].
    destruct (negb _); [reflexivity|].
    destruct (storedDate _) as [exp|]; [|reflexivity]. simpl.
    rewrite filter_app. simpl. rewrite Hnew. apply app_nil_r.
  - rewrite serve_refresh.
    destruct (negb _); [reflexivity|]. simpl.
    destruct (find _ (refreshTokens d)) as [row|] eqn:Hrow; [|reflexivity].
    destruct (find _ (users d)) as [user|]; [|reflexivity].
    apply find_some in Hrow. destruct Hrow as [Hin Hlive].
    destruct (_ <=? _); simpl.
    + apply filter_updateWhere_other. intros r Hr Hc.
      unfold hasTokenId in Hc. apply Nat.eqb_eq in Hc.
      assert (r = row) as -> by (eapply same_id_same_row; eassumption).
      split; [|apply revoked_not_live].
      eapply live_other_digest; eassumption.
    + destruct (storedDate _); simpl; [|reflexivity].
      apply filter_updateWhere_other. intros r Hr Hc.
      split; [|apply rotated_not_live; exact Hdraw].
      unfold rotationKey in Hc. apply andb_true_iff in Hc.
      destruct Hc as [_ Hc]. eapply live_other_digest; eassumption.
  - rewrite serve_logout. simpl.
    destruct (truthy _); [|reflexivity]. simpl.
    apply filter_updateWhere_other. intros r Hr Hc.
    split; [|apply revoked_not_live].
    eapply live_other_digest; eassumption.
Qed.

End Integrity.

Lemma sessions_do_not_interfere_witness :
  filter (liveWith "sha256:s1")
    (refreshTokens
       (@step demo noEnv dbAlice
          (mkCall Login (mkAmbient 2000 "s2") alice)))
  = filter (liveWith "sha256:s1") (refreshTokens dbAlice).
Proof.
  apply (@sessions_do_not_interfere demo noEnv
           (mkCall Login (mkAmbient 2000 "s2") alice) dbAlice "sha256:s1").
  - simpl. repeat constructor. intros [].
  - discriminate.
  - discriminate.
Defined.

(* ===================================================================== *)
(** * The fetch interceptor *)
(* ===================================================================== *)

Module ClientFacts.

Import Client.

Section Interceptor.

Context {B : Backend}.


Lemma wantsRefresh_refresh (r : Response Data) :
  wantsRefresh (API_BASE_URL ++ "/auth/refresh") r = false.
Proof.
  unfold wantsRefresh. destruct (status r =? 401); reflexivity.
Qed.

Lemma patchedFetch_step (n : nat) (input : Request) :
  patchedFetch (S n) input =
  (if startsWith (url input) API_BASE_URL
   then
     bind (originalFetch (newRequest input))
       (fun first =>
          if wantsRefresh (url input) (fst first)
          then
            tryCatch
              (bind (refreshToken (patchedFetch n))
                 (fun _ =>
                    bind (originalFetch (snd first))
                      (fun again => ret (fst again))))
              (fun _ => ret (fst first))
          else ret (fst first))
   else plainFetch input).
Proof. reflexivity. Qed.

(** The patched fetch on the refresh request is the browser's own. *)
Lemma patched_refresh_request (n : nat) (b : Browser) :
  patchedFetch (S n) refreshRequest b = plainFetch refreshRequest b.
Proof.
  rewrite patchedFetch_step. unfold refreshRequest, plainFetch. cbn [url].
  change (startsWith (API_BASE_URL ++ "/auth/refresh") API_BASE_URL) with true.
  cbv iota. unfold bind.
  destruct (originalFetch _ b) as [[[r o]|e|] b']; try reflexivity.
  cbn [fst snd]. rewrite wantsRefresh_refresh. reflexivity.
Qed.

Lemma refreshToken_patched (n : nat) (b : Browser) :
  refreshToken (patchedFetch (S n)) b = refreshToken plainFetch b.
Proof.
  unfold refreshToken, apiRequest, bind.
  fold refreshRequest. rewrite patched_refresh_request. reflexivity.
Qed.

(** The patched fetch with the nesting resolved: the refresh is sent by
    the browser's own fetch. *)
Lemma patchedFetch_resolved (n : nat) (input : Request) (b : Browser) :
  patchedFetch (S (S n)) input b =
  (if startsWith (url input) API_BASE_URL
   then
     bind (originalFetch (newRequest input))
       (fun first =>
          if wantsRefresh (url input) (fst first)
          then
            tryCatch
              (bind (refreshToken plainFetch)
                 (fun _ =>
                    bind (originalFetch (snd first))
                      (fun again => ret (fst again))))
              (fun _ => ret (fst first))
          else ret (fst first))
   else plainFetch input) b.
Proof.
  rewrite patchedFetch_step.
  destruct (startsWith (url input) API_BASE_URL); [|reflexivity].
  unfold bind, tryCatch.
  destruct (originalFetch (newRequest input) b) as [[first|e|] b'];
    try reflexivity.
  destruct (wantsRefresh (url input) (fst first)); [|reflexivity].
  rewrite refreshToken_patched. reflexivity.
Qed.

Ltac run :=
  unfold refreshToken, getProfile, logout, authenticatedRequest, apiRequest,
    plainFetch, originalFetch, clone, navigate, bind, tryCatch, ret, throw,
    unfinished; simpl.

(** Case analysis on the answers of the backend, first request first,
    and on the tests made on them. *)
Ltac answer_of w :=
  match goal with
  | |- context [net ?r w] =>
      let r' := fresh "reply" in
      let w' := fresh "w" in
      let H := fresh "Hnet" in
      destruct (net r w) as [[r'|] w'] eqn:H; simpl;
      try answer_of w'
  | |- context [if ?c then _ else _] =>
      lazymatch c with
      | context [net _ _] => fail
      | _ => destruct c eqn:?; simpl; try answer_of w
      end
  | |- context [match payload ?r with _ => _ end] =>
      destruct (payload r) eqn:?; simpl; try answer_of w
  | |- context [match messageOf ?r with _ => _ end] =>
      destruct (messageOf r) eqn:?; simpl; try answer_of w
  | |- context [match body ?r with _ => _ end] =>
      destruct (body r) eqn:?; simpl; try answer_of w
  end.

Lemma patchedFetch_bounded (n : nat) (input : Request)
    (b : Browser) :
  patchedFetch (S (S n)) input b = patchedFetch 2 input b /\
  fst (patchedFetch 2 input b) <> Unfinished /\
  location (snd (patchedFetch 2 input b)) = location b /\
  exists more,
    sent (snd (patchedFetch 2 input b)) = (sent b ++ input :: more)%list /\
    (length more <= 2)%nat.
Proof.
  split; [rewrite !patchedFetch_resolved; reflexivity|].
  rewrite patchedFetch_resolved. run.
  destruct (startsWith (url input) API_BASE_URL); simpl;
    try answer_of (world b);
    (split; [discriminate|]); (split; [reflexivity|]);
    rewrite <- ?app_assoc; simpl; eexists; (split; [reflexivity|]);
    simpl; lia.
Qed.

(** X15. The interceptor never nests deeper than two calls of the patched
    fetch, whatever the backend answers: more fuel changes nothing and the
    run is never cut short.  One call sends the request first and at most
    two requests more, and never assigns the location. *)
Theorem interceptor_nesting_is_bounded (n : nat) (input : Request) (b : Browser) :
  patchedFetch (S (S n)) input b = patchedFetch 2 input b /\
  fst (patchedFetch 2 input b) <> Unfinished /\
  location (snd (patchedFetch 2 input b)) = location b /\
  exists more,
    sent (snd (patchedFetch 2 input b)) = (sent b ++ input :: more)%list /\
    (length more <= 2)%nat.
Proof. exact (patchedFetch_bounded n input b). Qed.

(** X16. The interceptor is transparent unless the reply is a 401 to a request
    of the API whose URL contains [/users/] and none of [/auth/refresh],
    [/auth/login], [/auth/register]: in every other case, a rejected fetch
    included, it sends the request once and passes on what the browser's
    own fetch gives. *)
Theorem interceptor_is_transparent (n : nat) (input : Request) (b : Browser) :
  startsWith (url input) API_BASE_URL = false \/
  (forall r w, net input (world b) = (Some r, w) ->
               status r <> 401 \/
               includes (url input) "/auth/refresh" = true \/
               includes (url input) "/auth/login" = true \/
               includes (url input) "/auth/register" = true \/
               includes (url input) "/users/" = false) ->
  patchedFetch (S n) input b = plainFetch input b.
Proof.
  intros H. rewrite patchedFetch_step.
  destruct (startsWith (url input) API_BASE_URL) eqn:Hs; [|reflexivity].
  destruct H as [H|H]; [discriminate H|].
  run. destruct (net input (world b)) as [[r|] w] eqn:Hnet; [|reflexivity].
  simpl. replace (wantsRefresh (url input) r) with false; [reflexivity|].
  symmetry. unfold wantsRefresh.
  destruct (H r w eq_refl) as [Hst|[Hi|[Hi|[Hi|Hi]]]].
  - apply Z.eqb_neq in Hst. rewrite Hst. reflexivity.
  - rewrite Hi, !andb_false_r. reflexivity.
  - rewrite Hi, !andb_false_r. reflexivity.
  - rewrite Hi, !andb_false_r. reflexivity.
  - rewrite Hi, !andb_false_r. reflexivity.
Qed.

(** X17. When the refresh fails (its fetch rejects, its reply is not a 2xx, or
    is a 2xx that is not JSON) the interceptor does not throw: it returns
    the 401 it got, having sent the request and the refresh, and nothing
    else. *)
Theorem failed_refresh_returns_the_401 (n : nat) (input : Request)
    (b : Browser) (r1 : Response Data) (w1 w2 : World) :
  startsWith (url input) API_BASE_URL = true ->
  net input (world b) = (Some r1, w1) ->
  wantsRefresh (url input) r1 = true ->
  net refreshRequest w1 = (None, w2) \/
  (exists r2, net refreshRequest w1 = (Some r2, w2) /\
              (ok r2 = false \/ payload r2 = None)) ->
  patchedFetch (S (S n)) input b =
  (Returned r1,
   mkBrowser w2 (sent b ++ [input; refreshRequest]) (location b)).
Proof.
  intros Hs H1 Hw H2. rewrite patchedFetch_resolved, Hs. run.
  rewrite H1. simpl. rewrite Hw. simpl. unfold refreshRequest in H2.
  simpl in H2.
  destruct H2 as [H2|(r2 & H2 & Hbad)]; rewrite H2; simpl.
  - rewrite <- app_assoc. reflexivity.
  - destruct (ok r2) eqn:Hok; simpl.
    + destruct Hbad as [Hbad|Hbad]; [discriminate Hbad|].
      rewrite Hbad. rewrite <- app_assoc. reflexivity.
    + rewrite <- app_assoc. reflexivity.
Qed.

Lemma patchedFetch_retry (n : nat) (input : Request)
    (b : Browser) (r1 r2 : Response Data) (data : Data) (w1 w2 : World) :
  startsWith (url input) API_BASE_URL = true ->
  net input (world b) = (Some r1, w1) ->
  wantsRefresh (url input) r1 = true ->
  net refreshRequest w1 = (Some r2, w2) ->
  ok r2 = true ->
  payload r2 = Some data ->
  patchedFetch (S (S n)) input b =
  match body input with
  | None =>
      (Returned (match fst (net input w2) with
                 | Some r3 => r3
                 | None => r1
                 end),
       mkBrowser (snd (net input w2))
         (sent b ++ [input; refreshRequest; input]) (location b))
  | Some _ =>
      (Returned r1,
       mkBrowser w2 (sent b ++ [input; refreshRequest]) (location b))
  end.
Proof.
  intros Hs H1 Hw H2 Hok Hdata. rewrite patchedFetch_resolved, Hs. run.
  rewrite H1. simpl. rewrite Hw. simpl. unfold refreshRequest in H2.
  simpl in H2. rewrite H2. simpl. rewrite Hok, Hdata. simpl.
  destruct (body input); simpl.
  - rewrite <- app_assoc. reflexivity.
  - destruct (net input w2) as [[r3|] w3]; simpl;
      rewrite <- !app_assoc; reflexivity.
Qed.

(** X18. When the refresh succeeds, a request without a body is sent once more
    and the reply to the retry is returned; if the retry rejects, the error
    is dropped and the first 401 is returned.  A request with a body is not
    sent again: its [Request] object was read by the first fetch, and the
    first 401 is returned although the refresh went through. *)
Theorem successful_refresh_retries_once (n : nat) (input : Request)
    (b : Browser) (r1 r2 : Response Data) (data : Data) (w1 w2 : World) :
  startsWith (url input) API_BASE_URL = true ->
  net input (world b) = (Some r1, w1) ->
  wantsRefresh (url input) r1 = true ->
  net refreshRequest w1 = (Some r2, w2) ->
  ok r2 = true ->
  payload r2 = Some data ->
  patchedFetch (S (S n)) input b =
  match body input with
  | None =>
      (Returned (match fst (net input w2) with
                 | Some r3 => r3
                 | None => r1
                 end),
       mkBrowser (snd (net input w2))
         (sent b ++ [input; refreshRequest; input]) (location b))
  | Some _ =>
      (Returned r1,
       mkBrowser w2 (sent b ++ [input; refreshRequest]) (location b))
  end.
Proof. exact (@patchedFetch_retry n input b r1 r2 data w1 w2). Qed.

(** X19. The helpers of [apiUtils] never throw, before the interceptor is set
    up and after: every failure of the request is turned into a value. *)
Theorem api_utils_never_throw (n : nat) (b : Browser) :
  let returns (A : Type) (m : C A) := exists v b', m b = (Returned v, b') in
  (returns _ (isAuthenticated plainFetch) /\
   returns _ (clearAuth plainFetch) /\
   returns _ (autoRefreshToken plainFetch) /\
   returns _ (checkAuthStatus plainFetch) /\
   returns _ (silentAuthCheck plainFetch)) /\
  (returns _ (isAuthenticated (patchedFetch (S (S n)))) /\
   returns _ (clearAuth (patchedFetch (S (S n)))) /\
   returns _ (autoRefreshToken (patchedFetch (S (S n)))) /\
   returns _ (checkAuthStatus (patchedFetch (S (S n)))) /\
   returns _ (silentAuthCheck (patchedFetch (S (S n))))).
Proof.
  intros returns. subst returns. cbv beta.
  assert (Hgen : forall fetch : Request -> C (Response Data),
            (forall r b0, fst (fetch r b0) <> Unfinished) ->
            (exists v b', isAuthenticated fetch b = (Returned v, b')) /\
            (exists v b', clearAuth fetch b = (Returned v, b')) /\
            (exists v b', autoRefreshToken fetch b = (Returned v, b')) /\
            (exists v b', checkAuthStatus fetch b = (Returned v, b')) /\
            (exists v b', silentAuthCheck fetch b = (Returned v, b'))).
  { intros fetch Hf.
    unfold isAuthenticated, clearAuth, autoRefreshToken, checkAuthStatus,
      silentAuthCheck. run.
    repeat split;
      match goal with
      | |- context [fetch ?r b] =>
          pose proof (Hf r b) as Hr;
          destruct (fetch r b) as [[x|e|] b1]; simpl in *;
          [|eauto|contradiction Hr; reflexivity]
      end;
      repeat (match goal with
              | |- context [if ?c then _ else _] => destruct c
              | |- context [match payload ?r with _ => _ end] =>
                  destruct (payload r)
              end; simpl); eauto. }
  split; apply Hgen.
  - intros r b0. unfold plainFetch. run.
    destruct (net r (world b0)) as [[x|] w]; discriminate.
  - intros r b0.
    destruct (patchedFetch_bounded n r b0) as (-> & Hf & _).
    exact Hf.
Qed.

(** X20. The checks that the service calls silent are intercepted like any
    other request once the interceptor is set up: when the profile request
    is answered 401 and the refresh goes through, [silentAuthCheck] has
    sent a refresh and answers by the reply to its retry. *)
Theorem silent_check_is_intercepted (n : nat) (b : Browser)
    (r1 r2 r3 : Response Data) (data : Data) (w1 w2 w3 : World) :
  let profile := mkRequest (API_BASE_URL ++ "/users/me") "GET" None in
  net profile (world b) = (Some r1, w1) ->
  status r1 = 401 ->
  net refreshRequest w1 = (Some r2, w2) ->
  ok r2 = true ->
  payload r2 = Some data ->
  net profile w2 = (Some r3, w3) ->
  silentAuthCheck plainFetch b =
    (Returned false, mkBrowser w1 (sent b ++ [profile]) (location b)) /\
  silentAuthCheck (patchedFetch (S (S n))) b =
    (Returned (ok r3),
     mkBrowser w3 (sent b ++ [profile; refreshRequest; profile])
       (location b)).
Proof.
  intros profile H1 Hst H2 Hok Hdata H3. split.
  - unfold silentAuthCheck. run. subst profile. simpl in H1. rewrite H1.
    simpl. unfold ok. rewrite Hst. reflexivity.
  - unfold silentAuthCheck, tryCatch, bind. fold profile.
    assert (Hw : wantsRefresh (url profile) r1 = true).
    { unfold wantsRefresh. rewrite Hst. reflexivity. }
    rewrite (@patchedFetch_retry n profile b r1 r2 data w1 w2 eq_refl
               H1 Hw H2 Hok Hdata).
    simpl. rewrite H3. reflexivity.
Qed.

(** X21. The later interceptor never throws once the first fetch has answered
    a 401 it reacts to, sends at most two more requests, and changes the
    page only to [/auth] and only when it returns that first 401.  A
    request with a body always ends that way, even when the refresh went
    through: the clone of a [Request] whose body was read throws. *)
Theorem later_interceptor_redirects (base : string) (input : Request)
    (b : Browser) (r1 : Response Data) (w1 : World) :
  startsWith (url input) base = true ->
  net input (world b) = (Some r1, w1) ->
  wantsRefreshLater (url input) r1 = true ->
  exists r b' more,
    patchedFetchLater base input b = (Returned r, b') /\
    sent b' = (sent b ++ input :: more)%list /\
    (1 <= length more <= 2)%nat /\
    (location b' = location b /\ body input = None \/
     location b' = Some "/auth" /\ r = r1) /\
    (body input <> None -> location b' = Some "/auth" /\ r = r1).
Proof.
  intros Hs H1 Hw. unfold patchedFetchLater. rewrite Hs. run.
  rewrite H1. simpl. rewrite Hw. simpl.
  destruct (net _ w1) as [[r2|] w2]; simpl.
  - destruct (ok r2); simpl.
    + destruct (body input) as [s|] eqn:Hb; simpl.
      * do 3 eexists. rewrite <- app_assoc. simpl.
        split; [reflexivity|]. split; [reflexivity|].
        split; [simpl; lia|]. split; [right|]; auto.
      * destruct (net input w2) as [[r3|] w3]; simpl; rewrite ?Hb; simpl;
          do 3 eexists; rewrite <- !app_assoc; simpl;
          (split; [reflexivity|]); (split; [reflexivity|]);
          (split; [simpl; lia|]); (split; [|intros H; contradiction H; reflexivity]);
          [left|right]; auto.
    + do 3 eexists. rewrite <- app_assoc. simpl.
      split; [reflexivity|]. split; [reflexivity|].
      split; [simpl; lia|]. split; [right|]; auto.
  - do 3 eexists. rewrite <- app_assoc. simpl.
    split; [reflexivity|]. split; [reflexivity|].
    split; [simpl; lia|]. split; [right|]; auto.
Qed.

End Interceptor.

End ClientFacts.

Lemma interceptor_is_transparent_witness :
  @Client.patchedFetch scripted 1 loginRequest (freshBrowser [Some refused])
  = @Client.plainFetch scripted loginRequest (freshBrowser [Some refused]).
Proof.
  apply (@ClientFacts.interceptor_is_transparent scripted 0 loginRequest
           (freshBrowser [Some refused])).
  right. intros r w _. right. right. left. reflexivity.
Defined.

Lemma failed_refresh_returns_the_401_witness :
  @Client.patchedFetch scripted 2 profileRequest
    (freshBrowser [Some unauthorized; Some refused])
  = (Client.Returned unauthorized,
     @Client.mkBrowser scripted []
       [profileRequest; Client.refreshRequest] None).
Proof.
  apply (@ClientFacts.failed_refresh_returns_the_401 scripted 0
           profileRequest (freshBrowser [Some unauthorized; Some refused])
           unauthorized [Some refused] []).
  - reflexivity.
  - reflexivity.
  - reflexivity.
  - right. exists refused. split; [reflexivity|]. left. reflexivity.
Defined.

Lemma successful_refresh_retries_once_witness :
  @Client.patchedFetch scripted 2 profileRequest
    (freshBrowser [Some unauthorized; Some refreshed; Some profile])
  = (Client.Returned profile,
     @Client.mkBrowser scripted []
       [profileRequest; Client.refreshRequest; profileRequest]
       None).
Proof.
  apply (@ClientFacts.successful_refresh_retries_once scripted 0
           profileRequest
           (freshBrowser [Some unauthorized; Some refreshed; Some profile])
           unauthorized refreshed (Token "jwt:1:user")
           [Some refreshed; Some profile] [Some profile]).
  - reflexivity.
  - reflexivity.
  - reflexivity.
  - reflexivity.
  - reflexivity.
  - reflexivity.
Defined.

Lemma silent_check_is_intercepted_witness :
  @Client.silentAuthCheck scripted (@Client.plainFetch scripted)
    (freshBrowser [Some unauthorized; Some refreshed; Some profile])
  = (Client.Returned false,
     @Client.mkBrowser scripted [Some refreshed; Some profile]
       [profileRequest] None) /\
  @Client.silentAuthCheck scripted (@Client.patchedFetch scripted 2)
    (freshBrowser [Some unauthorized; Some refreshed; Some profile])
  = (Client.Returned true,
     @Client.mkBrowser scripted []
       [profileRequest; Client.refreshRequest; profileRequest]
       None).
Proof.
  apply (@ClientFacts.silent_check_is_intercepted scripted 0
           (freshBrowser [Some unauthorized; Some refreshed; Some profile])
           unauthorized refreshed profile (Token "jwt:1:user")
           [Some refreshed; Some profile] [Some profile] []).
  - reflexivity.
  - reflexivity.
  - reflexivity.
  - reflexivity.
  - reflexivity.
  - reflexivity.
Defined.

Lemma later_interceptor_redirects_witness :
  exists r b' more,
    @Client.patchedFetchLater scripted "http://localhost:4000/api"
      profileUpdate
      (freshBrowser [Some unauthorized; Some refreshed; Some profile])
    = (Client.Returned r, b') /\
    Client.sent b' = ([] ++ profileUpdate :: more)%list /\
    (1 <= length more <= 2)%nat /\
    (Client.location b' = None /\ Client.body profileUpdate = None \/
     Client.location b' = Some "/auth" /\ r = unauthorized) /\
    (Client.body profileUpdate <> None ->
     Client.location b' = Some "/auth" /\ r = unauthorized).
Proof.
  apply (@ClientFacts.later_interceptor_redirects scripted
           "http://localhost:4000/api" profileUpdate
           (freshBrowser [Some unauthorized; Some refreshed; Some profile])
           unauthorized [Some refreshed; Some profile]).
  - reflexivity.
  - reflexivity.
  - reflexivity.
Defined.

(* ===================================================================== *)
(** * The service against the routes *)
(* ===================================================================== *)

Section Messages.

Context {P : Platform}.

Variable W : Type.
Variable wire : Client.Request -> W -> option (Client.Response Body) * W.


(** Every reply of the routes that is not a 2xx carries a message that is
    not empty. *)
Lemma answer_message (env : Env) (c : Call) (d : Db) :
  Client.ok (deliver (answer env c d)) = false ->
  exists m, body (answer env c d) = Message m /\ m <> "".
Proof.
  unfold answer, handle.
  destruct c as [[| | |] a q]; simpl.
  - rewrite serve_register.
    repeat (match goal with
            | |- context [if ?x then _ else _] => destruct x
            | |- context [match ?x with _ => _ end] => destruct x
            end; simpl);
      try discriminate; intros _; eexists; split; try reflexivity;
      discriminate.
  - rewrite serve_login.
    repeat (match goal with
            | |- context [if ?x then _ else _] => destruct x
            | |- context [match ?x with _ => _ end] => destruct x
            end; simpl);
      try discriminate; intros _; eexists; split; try reflexivity;
      discriminate.
  - rewrite serve_refresh.
    repeat (match goal with
            | |- context [if ?x then _ else _] => destruct x
            | |- context [match ?x with _ => _ end] => destruct x
            end; simpl);
      try discriminate; intros _; eexists; split; try reflexivity;
      discriminate.
  - rewrite serve_logout.
    repeat (match goal with
            | |- context [if ?x then _ else _] => destruct x
            | |- context [match ?x with _ => _ end] => destruct x
            end; simpl);
      try discriminate; intros _; eexists; split; try reflexivity;
      discriminate.
Qed.

(** X22. When a route answers with an error, the service throws an [Error]
    whose message is the one the route sent, never its own
    [HTTP error! status: ...]. *)
Theorem route_errors_reach_the_caller (env : Env) (c : Call) (d : Db)
    (fetch : Client.Request -> @Client.C (bodyBackend wire) (Client.Response Body))
    (endpoint method : string) (payload : option string)
    (b b' : @Client.Browser (bodyBackend wire)) :
  fetch (Client.mkRequest (Client.API_BASE_URL ++ endpoint) method payload) b
    = (Client.Returned (deliver (answer env c d)), b') ->
  Client.ok (deliver (answer env c d)) = false ->
  exists m,
    body (answer env c d) = Message m /\
    @Client.apiRequest (bodyBackend wire) fetch endpoint method payload b
      = (Client.Threw (Client.Error m), b').
Proof.
  intros Hf Hok. destruct (answer_message env c d Hok) as (m & Hm & Hne).
  exists m. split; [exact Hm|].
  unfold Client.apiRequest, Client.bind. rewrite Hf. cbv beta iota zeta.
  change (@Client.Data (bodyBackend wire)) with Body. rewrite Hok. simpl.
  rewrite Hm. simpl. destruct m; [contradiction Hne; reflexivity|reflexivity].
Qed.

End Messages.

Lemma route_errors_reach_the_caller_witness :
  exists m,
    body (@answer demo noEnv (mkCall Login (mkAmbient 2000 "s2") aliceWrong)
            dbAlice) = Message m /\
    @Client.apiRequest scripted (@Client.plainFetch scripted)
      "/auth/login" "POST" (Some "{}")
      (freshBrowser
         [Some (deliver (@answer demo noEnv
                           (mkCall Login (mkAmbient 2000 "s2") aliceWrong)
                           dbAlice))])
    = (Client.Threw (Client.Error m),
       @Client.mkBrowser scripted [] [loginRequest] None).
Proof.
  apply (@route_errors_reach_the_caller demo _ replay noEnv
           (mkCall Login (mkAmbient 2000 "s2") aliceWrong) dbAlice
           (@Client.plainFetch scripted) "/auth/login" "POST" (Some "{}")).
  - reflexivity.
  - reflexivity.
Defined.
